(** * Orbital propagation core of space-simulation, embedded in Rocq

    Shallow embedding of [src/constants.py], [src/orbital_mechanics.py] and
    [src/simulation.py].  Numbers are IEEE binary64 values (Rocq's primitive
    floats), the representation numpy and Python use; numpy arrays are lists of
    floats with element-wise operations; Python exceptions are the [Raise]
    branch of a small exception monad. *)

From Stdlib Require Import ZArith Bool List String Lia.
From Stdlib Require Import Floats.
From Stdlib Require Uint63.
Import ListNotations.

Open Scope float_scope.
#[local] Set Warnings "-inexact-float".

(** ** Exceptions *)

Inductive PyError :=
| ValueError (msg : string)
| External (msg : string).

Inductive Exc (A : Type) :=
| Ret (a : A)
| Raise (e : PyError).
Arguments Ret {A} a.
Arguments Raise {A} e.

Definition bind {A B} (m : Exc A) (f : A -> Exc B) : Exc B :=
  match m with
  | Ret a => f a
  | Raise e => Raise e
  end.

Notation "'let*' x ':=' m 'in' f" := (bind m (fun x => f))
  (at level 200, x name, m at level 100, f at level 200).
Notation "'let*' ' p ':=' m 'in' f" := (bind m (fun x => match x with p => f end))
  (at level 200, p pattern, m at level 100, f at level 200).

(** ** constants.py *)

Definition GM_EARTH : float := 398600.4418.
Definition RADIUS_EARTH : float := 6378.137.
Definition J2 : float := 1.08263e-3.

(** ** numpy primitives *)

(** [x ** n] for a positive integer exponent.  numpy and Python delegate to
    libm's [pow]; it is modelled by the chain of products [x * x * ... * x],
    which agrees with [pow] on zeros, infinities and NaN and on exponent 2,
    and up to the last bits otherwise. *)
Fixpoint fpow (x : float) (n : nat) : float :=
  match n with
  | O => 1
  | 1%nat => x
  | S m => fpow x m * x
  end.

(** Element-wise sum of two arrays; numpy refuses arrays of different shapes. *)
Fixpoint vadd_raw (u v : list float) : list float :=
  match u, v with
  | a :: u', b :: v' => (a + b) :: vadd_raw u' v'
  | _, _ => []
  end.

Definition vadd (u v : list float) : Exc (list float) :=
  if Nat.eqb (List.length u) (List.length v) then Ret (vadd_raw u v)
  else Raise (ValueError "operands could not be broadcast together").

Fixpoint vsub_raw (u v : list float) : list float :=
  match u, v with
  | a :: u', b :: v' => (a - b) :: vsub_raw u' v'
  | _, _ => []
  end.

Definition vsub (u v : list float) : Exc (list float) :=
  if Nat.eqb (List.length u) (List.length v) then Ret (vsub_raw u v)
  else Raise (ValueError "operands could not be broadcast together").

(** Scalar times array. *)
Definition smul (c : float) (v : list float) : list float := map (fun a => c * a) v.

(** [np.linalg.norm] of a 1-D array: [sqrt(x.dot(x))]. *)
Definition norm (v : list float) : float :=
  sqrt (fold_left (fun acc a => acc + a * a) v 0).

(** ** orbital_mechanics.py *)

(** [calculate_acceleration(r_vector)]: two-body term plus J2 term.  The
    unpacking [x, y, z = r_vector] raises unless the array has 3 entries. *)
Definition calculate_acceleration (r_vector : list float) : Exc (list float) :=
  let r_norm := norm r_vector in
  match r_vector with
  | [x; y; z] =>
      let a_kepler := smul (-GM_EARTH / fpow r_norm 3) r_vector in
      let k_j2 := 1.5 * J2 * GM_EARTH * fpow RADIUS_EARTH 2 / fpow r_norm 5 in
      let z2 := fpow z 2 in
      let r2 := fpow r_norm 2 in
      let ax_j2 := k_j2 * x * (5 * z2 / r2 - 1) in
      let ay_j2 := k_j2 * y * (5 * z2 / r2 - 1) in
      let az_j2 := k_j2 * z * (5 * z2 / r2 - 3) in
      let a_j2 := [ax_j2; ay_j2; az_j2] in
      vadd a_kepler a_j2
  | _ => Raise (ValueError "wrong number of values to unpack")
  end.

(** [get_derivatives(t, state)]: [np.hstack((state[3:6], a))]; [t] unused. *)
Definition get_derivatives (t : float) (state : list float) : Exc (list float) :=
  let r_vector := firstn 3 state in
  let v_vector := skipn 3 (firstn 6 state) in
  let* a_vector := calculate_acceleration r_vector in
  Ret (v_vector ++ a_vector).

(** One pass of the loop body of [runge_kutta_4]: from [state_current] at
    time [t_current] to [state_next]. *)
Definition rk4_step (t_current delta_t : float) (state_current : list float)
  : Exc (list float) :=
  let* d1 := get_derivatives t_current state_current in
  let k1 := smul delta_t d1 in
  let* s2 := vadd state_current (smul 0.5 k1) in
  let* d2 := get_derivatives (t_current + 0.5 * delta_t) s2 in
  let k2 := smul delta_t d2 in
  let* s3 := vadd state_current (smul 0.5 k2) in
  let* d3 := get_derivatives (t_current + 0.5 * delta_t) s3 in
  let k3 := smul delta_t d3 in
  let* s4 := vadd state_current k3 in
  let* d4 := get_derivatives (t_current + delta_t) s4 in
  let k4 := smul delta_t d4 in
  let* w1 := vadd k1 (smul 2.0 k2) in
  let* w2 := vadd w1 (smul 2.0 k3) in
  let* w3 := vadd w2 k4 in
  vadd state_current (smul (1.0 / 6.0) w3).

(** The loop [for i in range(num_steps)] from a current time and state: the
    rows [1 .. num_steps] of [time_series] and [state_history]; each new time
    is [t_current + delta_t]. *)
Fixpoint rk4_loop (n : nat) (delta_t t_current : float) (state_current : list float)
  : Exc (list float * list (list float)) :=
  match n with
  | O => Ret ([], [])
  | S n' =>
      let* state_next := rk4_step t_current delta_t state_current in
      let t_next := t_current + delta_t in
      let* '(ts, hist) := rk4_loop n' delta_t t_next state_next in
      Ret (t_next :: ts, state_next :: hist)
  end.

(** [runge_kutta_4(state_initial, delta_t, num_steps)] returns
    [(time_series, state_history)]; row 0 is [(0.0, state_initial)]. *)
Definition runge_kutta_4 (state_initial : list float) (delta_t : float) (num_steps : nat)
  : Exc (list float * list (list float)) :=
  let* '(ts, hist) := rk4_loop num_steps delta_t 0 state_initial in
  Ret (0 :: ts, state_initial :: hist).

(** ** Reading the spec *)

(** The RK4 recurrence as the spec writes it (section 4.3): [k1 = dt *
    derivative(s)], [k2 = dt * derivative(s + 0.5*k1)] at [t + dt/2],
    [k3 = dt * derivative(s + 0.5*k2)] at [t + dt/2], [k4 = dt *
    derivative(s + k3)] at [t + dt], [s_next = s + (1/6)*(k1 + 2*k2 + 2*k3 + k4)]. *)
Definition rk4_spec_step (t dt : float) (s : list float) : Exc (list float) :=
  let* d1 := get_derivatives t s in
  let k1 := smul dt d1 in
  let* m1 := vadd s (smul 0.5 k1) in
  let* d2 := get_derivatives (t + dt / 2) m1 in
  let k2 := smul dt d2 in
  let* m2 := vadd s (smul 0.5 k2) in
  let* d3 := get_derivatives (t + dt / 2) m2 in
  let k3 := smul dt d3 in
  let* m3 := vadd s k3 in
  let* d4 := get_derivatives (t + dt) m3 in
  let k4 := smul dt d4 in
  let* w := vadd k1 (smul 2 k2) in
  let* w := vadd w (smul 2 k3) in
  let* w := vadd w k4 in
  vadd s (smul (1 / 6) w).

(** The force model as the spec writes it (section 4.1), with the constants
    of the claim: [a_kepler = -(GM/|r|^3) * r] plus the J2 term with
    [k = 1.5 * J2 * GM * R_eq^2 / |r|^5]. *)
Definition acceleration_spec (x y z : float) : list float :=
  let GM := 398600.4418 in
  let R_eq := 6378.137 in
  let J2c := 1.08263e-3 in
  let r := norm [x; y; z] in
  let a_kepler := smul (- (GM / fpow r 3)) [x; y; z] in
  let k := 1.5 * J2c * GM * fpow R_eq 2 / fpow r 5 in
  let z2 := fpow z 2 in
  let r2 := fpow r 2 in
  let a_j2 := [k * x * (5 * z2 / r2 - 1); k * y * (5 * z2 / r2 - 1);
               k * z * (5 * z2 / r2 - 3)] in
  vadd_raw a_kepler a_j2.

(** ** Classifying floats *)

(** [x == 0.0] in Python: [+0.0] or [-0.0]. *)
Definition fzero (x : float) : bool :=
  match Prim2SF x with S754_zero _ => true | _ => false end.

(** [math.isfinite(x)]. *)
Definition ffin (x : float) : bool :=
  match Prim2SF x with S754_zero _ | S754_finite _ _ _ => true | _ => false end.

(** Python's [float(n)] for a small natural number. *)
Definition float_of_nat (n : nat) : float := of_uint63 (Uint63.of_Z (Z.of_nat n)).

(** [0 + dt + dt + ... + dt] ([i] additions), summed from the left. *)
Fixpoint iter_add (i : nat) (dt : float) : float :=
  match i with
  | O => 0
  | S j => iter_add j dt + dt
  end.

(** A position whose derived magnitudes are usable by the force model: the
    factors [-GM/|r|^3] and [k_j2] are finite, and [|r|^2] is finite and not
    zero (none of the powers of [|r|] underflowed or overflowed). *)
Definition regular_position (r : list float) : bool :=
  let r_norm := norm r in
  ffin (-GM_EARTH / fpow r_norm 3)
  && ffin (1.5 * J2 * GM_EARTH * fpow RADIUS_EARTH 2 / fpow r_norm 5)
  && ffin (fpow r_norm 2) && negb (fzero (fpow r_norm 2)).

(** A state in the equatorial plane: [z == 0] and [vz == 0]. *)
Definition equatorial (s : list float) : bool :=
  fzero (nth 2 s 1) && fzero (nth 5 s 1).

(** The four states at which one RK4 step evaluates [get_derivatives]. *)
Definition rk4_stages (t_current delta_t : float) (state_current : list float)
  : Exc (list (list float)) :=
  let* d1 := get_derivatives t_current state_current in
  let k1 := smul delta_t d1 in
  let* s2 := vadd state_current (smul 0.5 k1) in
  let* d2 := get_derivatives (t_current + 0.5 * delta_t) s2 in
  let k2 := smul delta_t d2 in
  let* s3 := vadd state_current (smul 0.5 k2) in
  let* d3 := get_derivatives (t_current + 0.5 * delta_t) s3 in
  let k3 := smul delta_t d3 in
  let* s4 := vadd state_current k3 in
  Ret [state_current; s2; s3; s4].

(** Every stage position met by the first [n] steps of the loop is regular. *)
Fixpoint stages_regular (n : nat) (delta_t t_current : float) (state_current : list float)
  : bool :=
  match n with
  | O => true
  | S n' =>
      match rk4_stages t_current delta_t state_current,
            rk4_step t_current delta_t state_current with
      | Ret st, Ret state_next =>
          forallb (fun q => regular_position (firstn 3 q)) st
          && stages_regular n' delta_t (t_current + delta_t) state_next
      | _, _ => false
      end
  end.

(** ** simulation.py *)

(** An [EarthSatellite] as the orchestrator reads it: [satellite.name],
    [satellite.model.satnum] and the TT Julian date of [satellite.epoch]. *)
Record Satellite := {
  sat_name : string;
  sat_satnum : Z;
  sat_epoch_tt : float
}.

(** One row of the consolidated DataFrame, columns in order. *)
Record Row := {
  rx : float; ry : float; rz : float;
  vx : float; vy : float; vz : float;
  time_step : Z;
  satellite_name : string;
  satellite_id : Z;
  error_km : float
}.

Definition DELTA_T_SECONDS : Z := 60.
Definition DURATION_HOURS : Z := 1.
(** [int(DURATION_HOURS * 3600 / DELTA_T_SECONDS)] *)
Definition NUM_STEPS : nat := Z.to_nat (DURATION_HOURS * 3600 / DELTA_T_SECONDS).

(** [np.arange(start, stop, step)] on integers, for [step > 0]. *)
Definition arange (start stop step : Z) : list Z :=
  map (fun k => start + Z.of_nat k * step)%Z
      (seq 0 (Z.to_nat ((stop - start + step - 1) / step))).

(** [time_series = np.arange(0, DURATION_HOURS * 3600 + DELTA_T_SECONDS, DELTA_T_SECONDS)] *)
Definition time_series : list Z :=
  arange 0 (DURATION_HOURS * 3600 + DELTA_T_SECONDS) DELTA_T_SECONDS.

Section Orchestrator.

(** [satellite.at(t)] of Skyfield (SGP4): position in km and velocity in km/s
    at the TT Julian date [t]; it may raise. *)
Variable sat_at : Satellite -> float -> Exc (list float * list float).

(** [get_initial_state_and_time(satellite, ts)] with [time_offset_seconds = 0]. *)
Definition get_initial_state_and_time (satellite : Satellite) : Exc (float * list float) :=
  let t0 := sat_epoch_tt satellite in
  let* '(r_vector, v_vector) := sat_at satellite t0 in
  Ret (t0, r_vector ++ v_vector).

(** The loop filling [r_skyfield_history] at [t0.tt + time_series / (24 * 3600)]. *)
Fixpoint reference_positions (satellite : Satellite) (t0 : float) (times : list Z)
  : Exc (list (list float)) :=
  match times with
  | [] => Ret []
  | k :: times' =>
      let* '(r_vector, _) := sat_at satellite (t0 + float_of_nat (Z.to_nat k) / 86400) in
      if Nat.eqb (List.length r_vector) 3 then
        let* rest := reference_positions satellite t0 times' in
        Ret (r_vector :: rest)
      else Raise (ValueError "could not broadcast input array")
  end.

(** One row of [df_orbit] from one row of [state_history_rk4]. *)
Definition row_of (satellite : Satellite) (err : float) (st : list float) (k : Z) : Exc Row :=
  match st with
  | [a; b; c; d; e; f] =>
      Ret {| rx := a; ry := b; rz := c; vx := d; vy := e; vz := f;
             time_step := k; satellite_name := sat_name satellite;
             satellite_id := sat_satnum satellite; error_km := err |}
  | _ => Raise (ValueError "Shape of passed values is not 6 columns")
  end.

(** [df_orbit] with its [time_step], identity and [error_km] columns. *)
Fixpoint rows_of (satellite : Satellite) (err : float) (hist : list (list float))
  (times : list Z) : Exc (list Row) :=
  match hist, times with
  | [], _ => Ret []
  | st :: hist', k :: times' =>
      let* r := row_of satellite err st k in
      let* rs := rows_of satellite err hist' times' in
      Ret (r :: rs)
  | _ :: _, [] => Raise (ValueError "Length of values does not match length of index")
  end.

(** The body of the loop over [list_of_satellites] for one satellite. *)
Definition simulate_object (satellite : Satellite) : Exc (list Row) :=
  let* '(t0, state_initial) := get_initial_state_and_time satellite in
  let* '(_, state_history_rk4) :=
    runge_kutta_4 state_initial (float_of_nat (Z.to_nat DELTA_T_SECONDS)) NUM_STEPS in
  let* r_skyfield_history := reference_positions satellite t0 time_series in
  let final_r_rk4 := firstn 3 (last state_history_rk4 []) in
  let final_r_skyfield := last r_skyfield_history [] in
  let* difference_vector := vsub final_r_rk4 final_r_skyfield in
  let error_magnitude := norm difference_vector in
  rows_of satellite error_magnitude state_history_rk4 time_series.

(** [all_results], appended in the order of the satellites. *)
Fixpoint simulate_all (sats : list Satellite) : Exc (list (list Row)) :=
  match sats with
  | [] => Ret []
  | satellite :: sats' =>
      let* df_orbit := simulate_object satellite in
      let* rest := simulate_all sats' in
      Ret (df_orbit :: rest)
  end.

(** [pd.concat(all_results, ignore_index=True)]: refuses an empty list. *)
Definition pd_concat (dfs : list (list Row)) : Exc (list Row) :=
  match dfs with
  | [] => Raise (ValueError "No objects to concatenate")
  | _ => Ret (List.concat dfs)
  end.

(** [run_multi_object_simulation_and_validate(ts, list_of_satellites)] *)
Definition run_multi_object_simulation_and_validate (list_of_satellites : list Satellite)
  : Exc (list Row) :=
  let* all_results := simulate_all list_of_satellites in
  pd_concat all_results.

End Orchestrator.

Definition state_test : list float := [7000; 0; 0; 0; 7.546; 0].

(** The six state columns of a row. *)
Definition row_state (row : Row) : list float :=
  [rx row; ry row; rz row; vx row; vy row; vz row].

(** ** Sample inputs *)

Definition sat_A : Satellite :=
  {| sat_name := "SAT-A"; sat_satnum := 1; sat_epoch_tt := 2460000.5 |}.
Definition sat_B : Satellite :=
  {| sat_name := "SAT-B"; sat_satnum := 2; sat_epoch_tt := 2460000.5 |}.

(** A reference propagator that always answers the circular test orbit. *)
Definition circular_sat_at (satellite : Satellite) (t : float)
  : Exc (list float * list float) :=
  Ret ([7000; 0; 0], [0; 7.546; 0]).

(** A reference propagator whose queries after the epoch of satellite 1 fail. *)
Definition failing_sat_at (satellite : Satellite) (t : float)
  : Exc (list float * list float) :=
  if Z.eqb (sat_satnum satellite) 1 && (sat_epoch_tt satellite <? t)
  then Raise (External "reference propagator unavailable")
  else Ret ([7000; 0; 0], [0; 7.546; 0]).

(** An initial-condition translator that places the object at the origin. *)
Definition origin_sat_at (satellite : Satellite) (t : float)
  : Exc (list float * list float) :=
  Ret ([0; 0; 0], [0; 7.546; 0]).

(** The rows of a one-object batch whose object starts at the origin. *)
Definition origin_rows : list Row :=
  match run_multi_object_simulation_and_validate origin_sat_at [sat_A] with
  | Ret rows => rows
  | Raise _ => []
  end.

(** The rows of a one-object batch on the circular test orbit. *)
Definition circular_rows : list Row :=
  match run_multi_object_simulation_and_validate circular_sat_at [sat_A] with
  | Ret rows => rows
  | Raise _ => []
  end.

(** ** Signs of results *)

(** [a'] is [-a], or both are zeros (Python's [==] does not tell [0.0] from
    [-0.0]). *)
Definition opp_or_zeros (a a' : float) : Prop :=
  a' = - a \/ (fzero a = true /\ fzero a' = true).

Definition SFzero (x : spec_float) : bool :=
  match x with S754_zero _ => true | _ => false end.

(** ** data_handler.py: [load_tles_smart] *)

(** What [load_tles_smart] observes of the disk: whether [data/] and
    [data/<filename>] exist, and the age of the file
    ([datetime.now() - datetime.fromtimestamp(os.path.getmtime(filepath))])
    in microseconds, the resolution of [timedelta]. *)
Record FileSys := {
  data_dir_exists : bool;
  file_exists : bool;
  file_age_us : Z
}.

(** The side effects of [load_tles_smart], in order: [os.makedirs(data_dir)],
    [load.tle_file(url, filename=filepath, reload=True)] and
    [load.tle_file(filepath, reload=False)]. *)
Inductive Action :=
| MakeDirs
| Download
| ReadCache.

Section TleCache.

(** Skyfield's [load.timescale()], which may raise. *)
Variable Timescale : Type.
Variable load_timescale : Exc Timescale.
(** [load.tle_file(url, filename=filepath, reload=True)]: downloads into
    [filepath] and parses it; it may raise, and it may leave a file behind. *)
Variable tle_download : FileSys -> FileSys * Exc (list Satellite).
(** [load.tle_file(filepath, reload=False)]: parses the file on disk. *)
Variable tle_read : FileSys -> Exc (list Satellite).

(** [load_tles_smart(url, filename, max_days)]: [max_age_us] is
    [timedelta(days=max_days)] in microseconds.  Returns the actions taken,
    the disk afterwards and [(ts, satellites)] or [(None, None)].  The final
    fallback read sits inside the [except] clause, so its exception escapes. *)
Definition load_tles_smart (fs : FileSys) (max_age_us : Z)
  : list Action * FileSys * Exc (option Timescale * option (list Satellite)) :=
  let '(log, fs) :=
    if data_dir_exists fs then ([], fs)
    else ([MakeDirs], {| data_dir_exists := true; file_exists := file_exists fs;
                         file_age_us := file_age_us fs |}) in
  let download_needed := negb (file_exists fs && Z.ltb (file_age_us fs) max_age_us) in
  match load_timescale with
  | Raise e => (log, fs, Raise e)
  | Ret ts =>
      let '(log, fs, attempt) :=
        if download_needed then
          let '(fs', r) := tle_download fs in (log ++ [Download], fs', r)
        else (log ++ [ReadCache], fs, tle_read fs) in
      match attempt with
      | Ret satellites => (log, fs, Ret (Some ts, Some satellites))
      | Raise _ =>
          if download_needed && file_exists fs then
            (log ++ [ReadCache], fs,
             let* satellites := tle_read fs in Ret (Some ts, Some satellites))
          else (log, fs, Ret (None, None))
      end
  end.

End TleCache.

Arguments load_tles_smart {Timescale} load_timescale tle_download tle_read fs max_age_us.

(** ** demo_apresentacao.py *)

(** [DELTA_T = 30] (an int, promoted to float64 by [DELTA_T * array]) and
    [SPEED_MULTIPLIER = 5]. *)
Definition DELTA_T : float := 30.
Definition SPEED_MULTIPLIER : nat := 5.

(** The hand-written RK4 step of [update(frame)]; every derivative is taken
    at [t = 0] and [2 * k2] is [2.0 * k2]. *)
Definition demo_rk4_substep (state : list float) : Exc (list float) :=
  let* d1 := get_derivatives 0 state in
  let k1 := smul DELTA_T d1 in
  let* s2 := vadd state (smul 0.5 k1) in
  let* d2 := get_derivatives 0 s2 in
  let k2 := smul DELTA_T d2 in
  let* s3 := vadd state (smul 0.5 k2) in
  let* d3 := get_derivatives 0 s3 in
  let k3 := smul DELTA_T d3 in
  let* s4 := vadd state k3 in
  let* d4 := get_derivatives 0 s4 in
  let k4 := smul DELTA_T d4 in
  let* w1 := vadd k1 (smul 2 k2) in
  let* w2 := vadd w1 (smul 2 k3) in
  let* w3 := vadd w2 k4 in
  vadd state (smul (1.0 / 6.0) w3).

(** [for _ in range(n): state = ...] *)
Fixpoint demo_substeps (n : nat) (state : list float) : Exc (list float) :=
  match n with
  | O => Ret state
  | S n' => let* state' := demo_rk4_substep state in demo_substeps n' state'
  end.

(** One dict of [current_data]: ['state'], ['sat_obj'], ['t0'] (its TT
    Julian date) and ['name']. *)
Record DemoEntry := {
  entry_state : list float;
  entry_sat : Satellite;
  entry_t0 : float;
  entry_name : string
}.

(** The physics loop of [update]: [SPEED_MULTIPLIER] steps per object, the
    new state stored back, then [state[0]], [state[1]], [state[2]] read for
    the plot ([External] carries the [IndexError]). *)
Fixpoint demo_physics (current_data : list DemoEntry) : Exc (list DemoEntry) :=
  match current_data with
  | [] => Ret []
  | entry :: rest =>
      let* state := demo_substeps SPEED_MULTIPLIER (entry_state entry) in
      match nth_error state 2 with
      | None => Raise (External "IndexError: index out of bounds")
      | Some _ =>
          let* rest' := demo_physics rest in
          Ret ({| entry_state := state; entry_sat := entry_sat entry;
                  entry_t0 := entry_t0 entry; entry_name := entry_name entry |} :: rest')
      end
  end.

Section Demo.

(** [sat_obj.at(t)] of Skyfield, as in the orchestrator. *)
Variable sat_at : Satellite -> float -> Exc (list float * list float).

(** [update(frame)] without its drawing calls: the physics loop,
    [elapsed_seconds += DELTA_T * SPEED_MULTIPLIER], [xs[0]] (an
    [IndexError] when no object was selected), then the comparison of the
    first object with the reference at [t0.tt + elapsed_seconds / 86400.0]
    and the HUD status.  Returns the new [current_data], [elapsed_seconds],
    [error_km] and status. *)
Definition demo_update (current_data : list DemoEntry) (elapsed_seconds : float)
  : Exc (list DemoEntry * float * float * string) :=
  let* current_data' := demo_physics current_data in
  let elapsed_seconds' := elapsed_seconds + float_of_nat (30 * SPEED_MULTIPLIER) in
  match current_data' with
  | [] => Raise (External "IndexError: list index out of range")
  | target_sat :: _ =>
      let rk4_pos := firstn 3 (entry_state target_sat) in
      let* '(sgp4_pos, _) :=
        sat_at (entry_sat target_sat) (entry_t0 target_sat + elapsed_seconds' / 86400) in
      let* error_vec := vsub rk4_pos sgp4_pos in
      let error_km := norm error_vec in
      Ret (current_data', elapsed_seconds', error_km,
           if error_km <? 5 then "NOMINAL"%string else "DRIFTING"%string)
  end.

End Demo.

(** ** More sample inputs *)

(** The trajectory of the test orbit over three steps of 60 s. *)
Definition sample_ts : list float :=
  match runge_kutta_4 state_test 60 3 with Ret (ts, _) => ts | Raise _ => [] end.
Definition sample_hist : list (list float) :=
  match runge_kutta_4 state_test 60 3 with Ret (_, hist) => hist | Raise _ => [] end.

(** The rows of the one-object run on the circular test orbit. *)
Definition circular_df : list Row :=
  match simulate_object circular_sat_at sat_A with Ret df => df | Raise _ => [] end.

(** A disk with a cache file one hour old, and one with a file two days old. *)
Definition fresh_disk : FileSys :=
  {| data_dir_exists := true; file_exists := true; file_age_us := 3600000000 |}.
Definition stale_disk : FileSys :=
  {| data_dir_exists := true; file_exists := true; file_age_us := 172800000000 |}.
(** [timedelta(days=1.0)] in microseconds. *)
Definition one_day_us : Z := 86400000000.

(** A network that is down and a cache file that cannot be parsed. *)
Definition offline_download (fs : FileSys) : FileSys * Exc (list Satellite) :=
  (fs, Raise (External "URLError: network unreachable")).
Definition corrupt_read (fs : FileSys) : Exc (list Satellite) :=
  Raise (ValueError "malformed TLE line").
Definition good_read (fs : FileSys) : Exc (list Satellite) := Ret [sat_A; sat_B].

(** One selected object on the test orbit, and the first frame of the demo. *)
Definition demo_sample_data : list DemoEntry :=
  [{| entry_state := state_test; entry_sat := sat_A; entry_t0 := 2460000.5;
      entry_name := "SAT-A" |}].
Definition demo_sample_frame : list DemoEntry * float * float * string :=
  match demo_update circular_sat_at demo_sample_data 0 with
  | Ret r => r
  | Raise _ => ([], 0, 0, "none"%string)
  end.
Definition demo_frame_data : list DemoEntry := fst (fst (fst demo_sample_frame)).
Definition demo_frame_elapsed : float := snd (fst (fst demo_sample_frame)).
Definition demo_frame_error : float := snd (fst demo_sample_frame).
Definition demo_frame_status : string := snd demo_sample_frame.

(** * Properties of binary64 arithmetic *)

Lemma Prim2SF_inj (x y : float) : Prim2SF x = Prim2SF y -> x = y.
Proof.
  intros H. rewrite <- (SF2Prim_Prim2SF x), <- (SF2Prim_Prim2SF y), H. reflexivity.
Qed.

(** Rounding only carries the sign. *)
Lemma binary_round_aux_negb (s : bool) (m e : Z) (l : location) :
  binary_round_aux prec emax (negb s) m e l = SFopp (binary_round_aux prec emax s m e l).
Proof.
  unfold binary_round_aux.
  destruct (shr_fexp prec emax m e l) as [m1 e1].
  destruct (shr_fexp prec emax _ e1 loc_Exact) as [m2 e2].
  destruct (shr_m m2); [reflexivity | | reflexivity].
  destruct (Z.leb e2 (emax - prec)%Z); reflexivity.
Qed.

Lemma SF64div_opp_l (x y : spec_float) : SF64div (SFopp x) y = SFopp (SF64div x y).
Proof.
  destruct x as [sa | sa | | sa ma ea]; destruct y as [sb | sb | | sb mb eb];
  [ .. | unfold SF64div, SFdiv; cbn [SFopp];
         destruct (SFdiv_core_binary prec emax (Zpos ma) ea (Zpos mb) eb) as [[mz ez] lz];
         replace (xorb (negb sa) sb) with (negb (xorb sa sb)) by (destruct sa, sb; reflexivity);
         apply binary_round_aux_negb ].
  all: cbn; repeat match goal with b : bool |- _ => destruct b end; reflexivity.
Qed.

(** [(-a) / b] and [-(a / b)] are the same float. *)
Lemma div_opp_l (a b : float) : (- a) / b = - (a / b).
Proof.
  apply Prim2SF_inj. rewrite div_spec, !opp_spec, div_spec. apply SF64div_opp_l.
Qed.

Ltac float_cases a b :=
  unfold fzero, ffin in *;
  destruct (Prim2SF a) as [? | ? | | ? ? ?];
  destruct (Prim2SF b) as [? | ? | | ? ? ?];
  try discriminate; try reflexivity.

Lemma fzero_ffin (x : float) : fzero x = true -> ffin x = true.
Proof. unfold fzero, ffin. destruct (Prim2SF x); easy. Qed.

Lemma mul_zero_l (a b : float) : fzero a = true -> ffin b = true -> fzero (a * b) = true.
Proof. intros Ha Hb. unfold fzero. rewrite mul_spec. float_cases a b. Qed.

Lemma mul_zero_r (a b : float) : ffin a = true -> fzero b = true -> fzero (a * b) = true.
Proof. intros Ha Hb. unfold fzero. rewrite mul_spec. float_cases a b. Qed.

Lemma add_zero (a b : float) : fzero a = true -> fzero b = true -> fzero (a + b) = true.
Proof.
  intros Ha Hb. unfold fzero. rewrite add_spec. float_cases a b;
  cbn; repeat match goal with b : bool |- _ => destruct b end; reflexivity.
Qed.

Lemma div_zero (a b : float) :
  fzero a = true -> ffin b = true -> fzero b = false -> fzero (a / b) = true.
Proof. intros Ha Hb Hb'. unfold fzero. rewrite div_spec. float_cases a b. Qed.

Lemma sub_zero_fin (a b : float) : fzero a = true -> ffin b = true -> ffin (a - b) = true.
Proof.
  intros Ha Hb. unfold ffin. rewrite sub_spec. float_cases a b;
  cbn; repeat match goal with b : bool |- _ => destruct b end; reflexivity.
Qed.

(** * Shapes of the arrays *)

Lemma vadd_raw_length (u v : list float) :
  List.length (vadd_raw u v) = Nat.min (List.length u) (List.length v).
Proof. revert v; induction u as [| a u IH]; intros [| b v]; simpl; auto. Qed.

Lemma smul_length (c : float) (v : list float) : List.length (smul c v) = List.length v.
Proof. apply length_map. Qed.

Lemma vadd_eq (u v : list float) :
  List.length u = List.length v -> vadd u v = Ret (vadd_raw u v).
Proof. intros H. unfold vadd. rewrite H, Nat.eqb_refl. reflexivity. Qed.

Lemma calculate_acceleration_ret (x y z : float) :
  exists a, calculate_acceleration [x; y; z] = Ret a /\ List.length a = 3%nat.
Proof. eexists. split; reflexivity. Qed.

Lemma get_derivatives_6 (t : float) (s : list float) :
  List.length s = 6%nat ->
  exists d, get_derivatives t s = Ret d /\ List.length d = 6%nat /\
            firstn 3 d = skipn 3 s /\
            calculate_acceleration (firstn 3 s) = Ret (skipn 3 d).
Proof.
  intros H.
  destruct s as [| a [| b [| c [| d [| e [| f [| g l]]]]]]]; simpl in H; try lia.
  eexists. repeat split; reflexivity.
Qed.

Ltac len_solve := repeat rewrite ?vadd_raw_length, ?smul_length; lia.

(** Runs the [let*] chain of an RK4 step on 6-component arrays. *)
Ltac run_step :=
  repeat match goal with
  | |- context [get_derivatives ?t ?s] =>
      let d := fresh "d" in let Hd := fresh "Hd" in let Hl := fresh "Hl" in
      destruct (get_derivatives_6 t s ltac:(len_solve)) as (d & Hd & Hl & _ & _);
      rewrite Hd; cbn [bind]
  | |- context [vadd ?u ?v] => rewrite (vadd_eq u v) by len_solve; cbn [bind]
  end.

Lemma rk4_step_6 (t dt : float) (s : list float) :
  List.length s = 6%nat ->
  exists s', rk4_step t dt s = Ret s' /\ List.length s' = 6%nat.
Proof.
  intros H. unfold rk4_step. run_step. eexists. split; [reflexivity | len_solve].
Qed.

Lemma rk4_loop_6 (n : nat) (dt t : float) (s : list float) :
  List.length s = 6%nat ->
  exists ts hist,
    rk4_loop n dt t s = Ret (ts, hist) /\
    List.length ts = n /\ List.length hist = n /\
    Forall (fun q => List.length q = 6%nat) hist /\
    (forall i, (i < n)%nat -> nth i ts 0 = nth i (t :: ts) 0 + dt) /\
    (forall i, (i < n)%nat ->
       rk4_step (nth i (t :: ts) 0) dt (nth i (s :: hist) []) = Ret (nth i hist [])).
Proof.
  revert t s. induction n as [| n IH]; intros t s Hs.
  - exists [], []. repeat split; try constructor; intros i Hi; lia.
  - destruct (rk4_step_6 t dt s Hs) as (s' & Hstep & Hs').
    destruct (IH (t + dt) s' Hs') as (ts & hist & Hloop & Hlt & Hlh & Hall & Ht & Hh).
    exists (t + dt :: ts), (s' :: hist). simpl. rewrite Hstep. cbn [bind].
    rewrite Hloop. cbn [bind]. repeat split.
    + simpl; lia.
    + simpl; lia.
    + constructor; assumption.
    + intros [| i] Hi; [reflexivity |]. simpl. apply Ht. lia.
    + intros [| i] Hi; [exact Hstep |]. simpl. apply Hh. lia.
Qed.

(** The whole trajectory of a 6-component initial state. *)
Lemma runge_kutta_4_6 (s0 : list float) (dt : float) (N : nat) :
  List.length s0 = 6%nat ->
  exists ts hist,
    runge_kutta_4 s0 dt N = Ret (ts, hist) /\
    List.length ts = S N /\ List.length hist = S N /\
    nth 0 ts 1 = 0 /\ nth 0 hist [] = s0 /\
    Forall (fun q => List.length q = 6%nat) hist /\
    (forall i, (i < N)%nat -> nth (S i) ts 0 = nth i ts 0 + dt) /\
    (forall i, (i < N)%nat ->
       rk4_step (nth i ts 0) dt (nth i hist []) = Ret (nth (S i) hist [])).
Proof.
  intros H0.
  destruct (rk4_loop_6 N dt 0 s0 H0) as (ts & hist & Hloop & Hlt & Hlh & Hall & Ht & Hh).
  exists (0 :: ts), (s0 :: hist). unfold runge_kutta_4. rewrite Hloop. cbn [bind].
  repeat split; simpl; try lia.
  - constructor; assumption.
  - intros i Hi. apply Ht. exact Hi.
  - intros i Hi. apply Hh. exact Hi.
Qed.

Lemma rk4_loop_length (n : nat) (dt t : float) (s : list float) ts hist :
  rk4_loop n dt t s = Ret (ts, hist) -> List.length ts = n /\ List.length hist = n.
Proof.
  revert t s ts hist. induction n as [| n IH]; intros t s ts hist H; simpl in H.
  - injection H as <- <-. split; reflexivity.
  - destruct (rk4_step t dt s) as [s' |]; [| discriminate]. cbn [bind] in H.
    destruct (rk4_loop n dt (t + dt) s') as [[ts' hist'] |] eqn:E; [| discriminate].
    cbn [bind] in H. injection H as <- <-.
    destruct (IH _ _ _ _ E) as [H1 H2]. simpl. split; congruence.
Qed.

Lemma runge_kutta_4_length (s0 : list float) (dt : float) (N : nat) ts hist :
  runge_kutta_4 s0 dt N = Ret (ts, hist) ->
  List.length ts = S N /\ List.length hist = S N.
Proof.
  unfold runge_kutta_4. intros H.
  destruct (rk4_loop N dt 0 s0) as [[ts' hist'] |] eqn:E; [| discriminate].
  cbn [bind] in H. injection H as <- <-.
  destruct (rk4_loop_length _ _ _ _ _ _ E). simpl. split; congruence.
Qed.

(** * The force model, the derivative function and the RK4 step *)

(** C2: for every position [r = (x, y, z)], [calculate_acceleration(r)] is
    the superposition [a_kepler + a_j2] of the spec: [a_kepler =
    -(GM/|r|^3) * r] and [a_j2 = k*(x*(5z^2/|r|^2 - 1), y*(5z^2/|r|^2 - 1),
    z*(5z^2/|r|^2 - 3))] with [k = 1.5*J2*GM*R_eq^2/|r|^5], GM = 398600.4418,
    R_eq = 6378.137, J2 = 1.08263e-3, evaluated in binary64.  It holds for
    every [r], including [|r| = 0]; the code's [(-GM)/|r|^3] is the spec's
    [-(GM/|r|^3)] because binary64 division is symmetric in the sign. *)
Theorem calculate_acceleration_superposition (x y z : float) :
  calculate_acceleration [x; y; z] = Ret (acceleration_spec x y z).
Proof.
  unfold calculate_acceleration, acceleration_spec. cbv beta zeta iota.
  rewrite div_opp_l. reflexivity.
Qed.

(** C4: for every time [t] and 6-component state [[r, v]],
    [get_derivatives(t, state)] is the 6-component vector [[v, a]] with [a =
    calculate_acceleration(r)]; its first three components are [state[3:6]];
    and it is the same for any two times. *)
Theorem get_derivatives_velocity_passthrough (t : float) (s : list float) :
  List.length s = 6%nat ->
  exists a,
    calculate_acceleration (firstn 3 s) = Ret a /\
    get_derivatives t s = Ret (skipn 3 s ++ a) /\
    List.length (skipn 3 s ++ a) = 6%nat /\
    firstn 3 (skipn 3 s ++ a) = skipn 3 s /\
    (forall t1 t2, get_derivatives t1 s = get_derivatives t2 s).
Proof.
  intros H.
  destruct s as [| a [| b [| c [| d [| e [| f [| g l]]]]]]]; simpl in H; try lia.
  eexists. repeat split; reflexivity.
Qed.

Lemma get_derivatives_velocity_passthrough_witness :
  List.length state_test = 6%nat /\
  exists a,
    calculate_acceleration (firstn 3 state_test) = Ret a /\
    get_derivatives 0 state_test = Ret (skipn 3 state_test ++ a) /\
    List.length (skipn 3 state_test ++ a) = 6%nat /\
    firstn 3 (skipn 3 state_test ++ a) = skipn 3 state_test /\
    (forall t1 t2, get_derivatives t1 state_test = get_derivatives t2 state_test).
Proof.
  split; [reflexivity |].
  apply (get_derivatives_velocity_passthrough 0 state_test). reflexivity.
Defined.

Lemma rk4_spec_step_eq (t dt : float) (s : list float) :
  rk4_spec_step t dt s = rk4_step t dt s.
Proof. reflexivity. Qed.

(** C1: for every 6-component initial state [s0], step [dt] and step count
    [N], [runge_kutta_4(s0, dt, N)] returns a trajectory whose row [i+1] is
    the spec's RK4 recurrence ([k1 .. k4], [s + (1/6)(k1 + 2k2 + 2k3 + k4)])
    applied at row [i] and time [time_series[i]], for every [i < N].  (The
    claim's [N >= 1] is not needed.) *)
Theorem runge_kutta_4_spec_recurrence (s0 : list float) (dt : float) (N : nat) :
  List.length s0 = 6%nat ->
  exists ts hist,
    runge_kutta_4 s0 dt N = Ret (ts, hist) /\ List.length hist = S N /\
    (forall i, (i < N)%nat ->
       rk4_spec_step (nth i ts 0) dt (nth i hist []) = Ret (nth (S i) hist [])).
Proof.
  intros H.
  destruct (runge_kutta_4_6 s0 dt N H) as (ts & hist & E & _ & Hl & _ & _ & _ & _ & Hh).
  exists ts, hist. repeat split; [exact E | exact Hl |].
  intros i Hi. rewrite rk4_spec_step_eq. apply Hh. exact Hi.
Qed.

Lemma runge_kutta_4_spec_recurrence_witness :
  List.length state_test = 6%nat /\
  exists ts hist,
    runge_kutta_4 state_test 60 3 = Ret (ts, hist) /\ List.length hist = 4%nat /\
    (forall i, (i < 3)%nat ->
       rk4_spec_step (nth i ts 0) 60 (nth i hist []) = Ret (nth (S i) hist [])).
Proof.
  split; [reflexivity |].
  apply (runge_kutta_4_spec_recurrence state_test 60 3). reflexivity.
Defined.

(** * The time axis *)

Lemma time_recurrence_iter_add (ts : list float) (dt : float) (N : nat) :
  nth 0 ts 1 = 0 ->
  (forall i, (i < N)%nat -> nth (S i) ts 0 = nth i ts 0 + dt) ->
  forall i, (i <= N)%nat -> nth i ts 0 = iter_add i dt.
Proof.
  intros H0 Hrec i. induction i as [| i IH]; intros Hi.
  - destruct ts; [discriminate | exact H0].
  - rewrite Hrec by lia. simpl. rewrite IH by lia. reflexivity.
Qed.

Lemma forallb_seq (f : nat -> bool) (n : nat) :
  forallb f (seq 0 n) = true -> forall i, (i < n)%nat -> f i = true.
Proof.
  intros H i Hi. rewrite forallb_forall in H. apply H. apply in_seq. lia.
Qed.

Lemma time_axis_60_exact :
  forallb (fun i => iter_add i 60 =? float_of_nat i * 60) (seq 0 61) = true.
Proof. vm_compute. reflexivity. Qed.

Lemma time_axis_60_increasing :
  forallb (fun i => iter_add i 60 <? iter_add (S i) 60) (seq 0 60) = true.
Proof. vm_compute. reflexivity. Qed.

(** C3 fails in binary64: with [dt = 0.1] and [N = 10] the last entry of
    [time_series] is [0.9999999999999999], and [10 * 0.1 == 1.0] is not equal
    to it. *)
Lemma runge_kutta_4_time_drift :
  exists ts hist,
    runge_kutta_4 state_test 0.1 10 = Ret (ts, hist) /\
    nth 10 ts 0 = 0.9999999999999999 /\
    (nth 10 ts 0 =? float_of_nat 10 * 0.1) = false.
Proof.
  vm_compute. do 2 eexists. split; [reflexivity |]. split; reflexivity.
Qed.

(** C3 (as the code does it): for every 6-component initial state, [dt] and
    [N], entry 0 of [time_series] is [0.0] and entry [i+1] is entry [i] plus
    [dt] in binary64 (repeated addition, not [i * dt]); with the
    orchestrator's [dt = 60] and [N = 60] every entry [i] equals [i * 60]
    exactly. *)
Theorem runge_kutta_4_time_axis (s0 : list float) (dt : float) (N : nat) :
  List.length s0 = 6%nat ->
  exists ts hist,
    runge_kutta_4 s0 dt N = Ret (ts, hist) /\ List.length ts = S N /\
    nth 0 ts 1 = 0 /\
    (forall i, (i < N)%nat -> nth (S i) ts 0 = nth i ts 0 + dt) /\
    (dt = 60 -> N = 60%nat ->
     forall i, (i <= 60)%nat -> (nth i ts 0 =? float_of_nat i * 60) = true).
Proof.
  intros H.
  destruct (runge_kutta_4_6 s0 dt N H) as (ts & hist & E & Hlt & _ & H0 & _ & _ & Hrec & _).
  exists ts, hist. repeat split; try assumption.
  intros -> -> i Hi.
  rewrite (time_recurrence_iter_add ts 60 60 H0 Hrec i Hi).
  apply (forallb_seq (fun i => iter_add i 60 =? float_of_nat i * 60) 61 time_axis_60_exact).
  lia.
Qed.

Lemma runge_kutta_4_time_axis_witness :
  List.length state_test = 6%nat /\
  exists ts hist,
    runge_kutta_4 state_test 0.1 10 = Ret (ts, hist) /\ List.length ts = 11%nat /\
    nth 0 ts 1 = 0 /\
    (forall i, (i < 10)%nat -> nth (S i) ts 0 = nth i ts 0 + 0.1) /\
    (0.1 = 60 -> 10%nat = 60%nat ->
     forall i, (i <= 60)%nat -> (nth i ts 0 =? float_of_nat i * 60) = true).
Proof.
  split; [reflexivity |].
  apply (runge_kutta_4_time_axis state_test 0.1 10). reflexivity.
Defined.

(** C5 fails in binary64: with [dt = 1e308] and [N = 3] the times are
    [0, 1e308, inf, inf], and [time_series[2] < time_series[3]] is false. *)
Lemma runge_kutta_4_time_overflow :
  exists ts hist,
    runge_kutta_4 state_test 1e308 3 = Ret (ts, hist) /\
    nth 2 ts 0 = infinity /\ nth 3 ts 0 = infinity /\
    (nth 2 ts 0 <? nth 3 ts 0) = false.
Proof.
  vm_compute. do 2 eexists. split; [reflexivity |]. repeat split; reflexivity.
Qed.

(** C5 (as the code does it): for every 6-component initial state [s0],
    [dt] and [N], [runge_kutta_4] returns [N + 1] times and [N + 1] states,
    the first sample is [(0.0, s0)], and each next time is the previous time
    plus [dt] in binary64; with the orchestrator's [dt = 60] and [N = 60] the
    times are strictly increasing. *)
Theorem runge_kutta_4_trajectory_shape (s0 : list float) (dt : float) (N : nat) :
  List.length s0 = 6%nat ->
  exists ts hist,
    runge_kutta_4 s0 dt N = Ret (ts, hist) /\
    List.length ts = S N /\ List.length hist = S N /\
    nth 0 ts 1 = 0 /\ nth 0 hist [] = s0 /\
    (forall i, (i < N)%nat -> nth (S i) ts 0 = nth i ts 0 + dt) /\
    (dt = 60 -> N = 60%nat ->
     forall i, (i < 60)%nat -> (nth i ts 0 <? nth (S i) ts 0) = true).
Proof.
  intros H.
  destruct (runge_kutta_4_6 s0 dt N H)
    as (ts & hist & E & Hlt & Hlh & H0 & Hh0 & _ & Hrec & _).
  exists ts, hist. repeat split; try assumption.
  intros -> -> i Hi.
  rewrite (time_recurrence_iter_add ts 60 60 H0 Hrec i) by lia.
  rewrite (time_recurrence_iter_add ts 60 60 H0 Hrec (S i)) by lia.
  apply (forallb_seq (fun i => iter_add i 60 <? iter_add (S i) 60) 60
           time_axis_60_increasing).
  exact Hi.
Qed.

Lemma runge_kutta_4_trajectory_shape_witness :
  List.length state_test = 6%nat /\
  exists ts hist,
    runge_kutta_4 state_test 60 60 = Ret (ts, hist) /\
    List.length ts = 61%nat /\ List.length hist = 61%nat /\
    nth 0 ts 1 = 0 /\ nth 0 hist [] = state_test /\
    (forall i, (i < 60)%nat -> nth (S i) ts 0 = nth i ts 0 + 60) /\
    (60 = 60 -> 60%nat = 60%nat ->
     forall i, (i < 60)%nat -> (nth i ts 0 <? nth (S i) ts 0) = true).
Proof.
  split; [reflexivity |].
  apply (runge_kutta_4_trajectory_shape state_test 60 60). reflexivity.
Defined.

(** * Evaluation at the origin *)

(** C6 fails: at [r = (0, 0, 0)] [calculate_acceleration] raises nothing; it
    returns [[nan, nan, nan]] ([-GM / 0.0] is [-inf] and [5 * 0 / 0] is NaN
    under numpy's default error handling, which only warns). *)
Lemma calculate_acceleration_origin_returns :
  calculate_acceleration [0; 0; 0] = Ret [nan; nan; nan].
Proof. vm_compute. reflexivity. Qed.

(** C6 (as the code does it): [calculate_acceleration] has no domain check:
    it returns a 3-component value for every position [(x, y, z)], [|r| = 0]
    included, and at the origin that value is [[nan, nan, nan]]. *)
Theorem calculate_acceleration_no_domain_error :
  (forall x y z, exists a,
     calculate_acceleration [x; y; z] = Ret a /\ List.length a = 3%nat) /\
  calculate_acceleration [0; 0; 0] = Ret [nan; nan; nan].
Proof.
  split.
  - intros x y z. eexists. split; reflexivity.
  - vm_compute. reflexivity.
Qed.

(** * The equatorial plane *)

Lemma nth_vadd_raw (i : nat) (u v : list float) :
  (i < List.length u)%nat -> (i < List.length v)%nat ->
  nth i (vadd_raw u v) 1 = nth i u 1 + nth i v 1.
Proof.
  revert i v. induction u as [| a u IH]; intros i [| b v] Hu Hv; simpl in *; try lia.
  destruct i; [reflexivity |]. apply IH; lia.
Qed.

Lemma nth_smul (i : nat) (c : float) (v : list float) :
  (i < List.length v)%nat -> nth i (smul c v) 1 = c * nth i v 1.
Proof.
  revert i. induction v as [| a v IH]; intros i Hv; simpl in *; try lia.
  destruct i; [reflexivity |]. apply IH; lia.
Qed.

Lemma equatorial_vadd (u v : list float) :
  equatorial u = true -> equatorial v = true ->
  List.length u = 6%nat -> List.length v = 6%nat ->
  equatorial (vadd_raw u v) = true.
Proof.
  unfold equatorial. intros Hu Hv Lu Lv.
  apply andb_prop in Hu as [Hu2 Hu5]. apply andb_prop in Hv as [Hv2 Hv5].
  rewrite !nth_vadd_raw by lia. rewrite !add_zero by assumption. reflexivity.
Qed.

Lemma equatorial_smul (c : float) (v : list float) :
  ffin c = true -> equatorial v = true -> List.length v = 6%nat ->
  equatorial (smul c v) = true.
Proof.
  unfold equatorial. intros Hc Hv Lv. apply andb_prop in Hv as [Hv2 Hv5].
  rewrite !nth_smul by lia. rewrite !mul_zero_r by assumption. reflexivity.
Qed.

(** With [z == 0] and a regular position, the z-acceleration is zero. *)
Lemma acceleration_z_zero (x y z : float) :
  fzero z = true -> regular_position [x; y; z] = true ->
  forall a, calculate_acceleration [x; y; z] = Ret a -> fzero (nth 2 a 1) = true.
Proof.
  intros Hz Hreg a Ha. unfold regular_position in Hreg.
  apply andb_prop in Hreg as [Hreg Hr2z]. apply andb_prop in Hreg as [Hreg Hr2].
  apply andb_prop in Hreg as [Hc Hk]. apply negb_true_iff in Hr2z.
  unfold calculate_acceleration in Ha. cbv zeta in Ha.
  rewrite vadd_eq in Ha by reflexivity. injection Ha as <-.
  cbn [nth vadd_raw smul map].
  apply add_zero; [apply mul_zero_r; assumption |].
  apply mul_zero_l; [apply mul_zero_r; assumption |].
  apply sub_zero_fin; [| reflexivity].
  apply div_zero; try assumption.
  apply mul_zero_r; [reflexivity |]. cbn [fpow]. apply mul_zero_l; [assumption |].
  apply fzero_ffin; assumption.
Qed.

Lemma derivatives_equatorial (t : float) (s : list float) :
  List.length s = 6%nat -> equatorial s = true -> regular_position (firstn 3 s) = true ->
  forall d, get_derivatives t s = Ret d -> equatorial d = true.
Proof.
  intros Hs Heq Hreg d Hd.
  destruct s as [| x [| y [| z [| vx' [| vy' [| vz' [| g l]]]]]]]; simpl in Hs; try lia.
  unfold equatorial in *. simpl in Heq. apply andb_prop in Heq as [Hz Hvz].
  unfold get_derivatives in Hd. cbn [firstn skipn] in Hd, Hreg.
  destruct (calculate_acceleration_ret x y z) as (a & Ha & La).
  rewrite Ha in Hd. cbn [bind] in Hd. injection Hd as <-.
  pose proof (acceleration_z_zero x y z Hz Hreg a Ha) as Haz.
  destruct a as [| a0 [| a1 [| a2 [| a3 l']]]]; simpl in La; try lia.
  simpl. simpl in Haz. rewrite Hvz, Haz. reflexivity.
Qed.

Ltac equatorial_solve :=
  repeat first
    [ assumption
    | apply equatorial_vadd; [ | | len_solve | len_solve ]
    | apply equatorial_smul; [ first [assumption | reflexivity] | | len_solve ] ].

(** One RK4 step keeps [z == 0] and [vz == 0] when its four stage positions
    are regular and [dt] is finite. *)
Lemma rk4_step_equatorial (t dt : float) (s : list float) st :
  List.length s = 6%nat -> ffin dt = true -> equatorial s = true ->
  rk4_stages t dt s = Ret st ->
  forallb (fun q => regular_position (firstn 3 q)) st = true ->
  forall s', rk4_step t dt s = Ret s' -> equatorial s' = true /\ List.length s' = 6%nat.
Proof.
  intros Hs Hdt Heq Hst Hreg s' Hstep.
  unfold rk4_stages in Hst. unfold rk4_step in Hstep.
  destruct (get_derivatives_6 t s Hs) as (d1 & Hd1 & L1 & _ & _).
  rewrite Hd1 in Hst, Hstep. cbn [bind] in Hst, Hstep.
  rewrite vadd_eq in Hst, Hstep by len_solve. cbn [bind] in Hst, Hstep.
  destruct (get_derivatives_6 (t + 0.5 * dt) (vadd_raw s (smul 0.5 (smul dt d1))))
    as (d2 & Hd2 & L2 & _ & _); [len_solve |].
  rewrite Hd2 in Hst, Hstep. cbn [bind] in Hst, Hstep.
  rewrite vadd_eq in Hst, Hstep by len_solve. cbn [bind] in Hst, Hstep.
  destruct (get_derivatives_6 (t + 0.5 * dt) (vadd_raw s (smul 0.5 (smul dt d2))))
    as (d3 & Hd3 & L3 & _ & _); [len_solve |].
  rewrite Hd3 in Hst, Hstep. cbn [bind] in Hst, Hstep.
  rewrite vadd_eq in Hst, Hstep by len_solve. cbn [bind] in Hst, Hstep.
  injection Hst as <-. simpl in Hreg.
  apply andb_prop in Hreg as [R1 Hreg]. apply andb_prop in Hreg as [R2 Hreg].
  apply andb_prop in Hreg as [R3 Hreg]. apply andb_prop in Hreg as [R4 _].
  destruct (get_derivatives_6 (t + dt) (vadd_raw s (smul dt d3)))
    as (d4 & Hd4 & L4 & _ & _); [len_solve |].
  rewrite Hd4 in Hstep. cbn [bind] in Hstep.
  repeat (rewrite vadd_eq in Hstep by len_solve; cbn [bind] in Hstep).
  injection Hstep as <-.
  assert (E1 : equatorial d1 = true) by exact (derivatives_equatorial _ _ Hs Heq R1 _ Hd1).
  assert (E2 : equatorial d2 = true).
  { refine (derivatives_equatorial _ _ _ _ R2 _ Hd2); [len_solve | equatorial_solve]. }
  assert (E3 : equatorial d3 = true).
  { refine (derivatives_equatorial _ _ _ _ R3 _ Hd3); [len_solve | equatorial_solve]. }
  assert (E4 : equatorial d4 = true).
  { refine (derivatives_equatorial _ _ _ _ R4 _ Hd4); [len_solve | equatorial_solve]. }
  split; [equatorial_solve | len_solve].
Qed.

Lemma rk4_loop_equatorial (n : nat) (dt t : float) (s : list float) :
  List.length s = 6%nat -> ffin dt = true -> equatorial s = true ->
  stages_regular n dt t s = true ->
  exists ts hist, rk4_loop n dt t s = Ret (ts, hist) /\
                  Forall (fun q => equatorial q = true) hist.
Proof.
  revert t s. induction n as [| n IH]; intros t s Hs Hdt Heq Hreg.
  - exists [], []. split; [reflexivity | constructor].
  - simpl in Hreg.
    destruct (rk4_stages t dt s) as [st |] eqn:Est; [| discriminate].
    destruct (rk4_step t dt s) as [s' |] eqn:Estep; [| discriminate].
    apply andb_prop in Hreg as [Hst Hreg].
    destruct (rk4_step_equatorial t dt s st Hs Hdt Heq Est Hst s' Estep) as [Heq' Hs'].
    destruct (IH (t + dt) s' Hs' Hdt Heq' Hreg) as (ts & hist & Hloop & Hall).
    exists (t + dt :: ts), (s' :: hist). simpl. rewrite Estep. cbn [bind].
    rewrite Hloop. cbn [bind]. split; [reflexivity | constructor; assumption].
Qed.

(** C10 fails in binary64: the state [r = (1e-120, 0, 0)], [v = (0, 1, 0)]
    has [z == 0], [vz == 0] and [|r| = 1e-120 != 0], but [|r|^3] underflows
    to [0.0], [-GM/0.0] is [-inf], [-inf * 0.0] is NaN, and the z-component of
    the acceleration (and the vz-rate of [get_derivatives]) is NaN, not 0. *)
Lemma equatorial_plane_underflow :
  equatorial [1e-120; 0; 0; 0; 1; 0] = true /\
  (norm [1e-120; 0; 0] =? 0) = false /\
  calculate_acceleration [1e-120; 0; 0] = Ret [neg_infinity; nan; nan] /\
  (nth 2 [neg_infinity; nan; nan] 1 =? 0) = false /\
  get_derivatives 0 [1e-120; 0; 0; 0; 1; 0] = Ret [0; 1; 0; neg_infinity; nan; nan].
Proof. vm_compute. repeat split; reflexivity. Qed.

(** C10 (as the code does it, in binary64): let [s0] be a 6-component state
    with [z == 0] and [vz == 0] whose position is regular ([|r|^2] finite and
    nonzero, [-GM/|r|^3] and [k_j2] finite), and [dt] finite.  Then the
    z-component of [calculate_acceleration(r)] is zero, [get_derivatives]
    at [s0] has zero z- and vz-components for every [t], and if every stage
    position met by the [N] steps of [runge_kutta_4(s0, dt, N)] is regular,
    every state of the trajectory has [z == 0] and [vz == 0]. *)
Theorem equatorial_plane_invariant (s0 : list float) (dt : float) (N : nat) :
  List.length s0 = 6%nat -> ffin dt = true -> equatorial s0 = true ->
  regular_position (firstn 3 s0) = true -> stages_regular N dt 0 s0 = true ->
  (exists a, calculate_acceleration (firstn 3 s0) = Ret a /\ fzero (nth 2 a 1) = true) /\
  (forall t, exists d, get_derivatives t s0 = Ret d /\ equatorial d = true) /\
  (exists ts hist, runge_kutta_4 s0 dt N = Ret (ts, hist) /\
                   Forall (fun q => equatorial q = true) hist).
Proof.
  intros Hs Hdt Heq Hreg Hstages. split; [| split].
  - destruct s0 as [| x [| y [| z [| a [| b [| c [| g l]]]]]]]; simpl in Hs; try lia.
    unfold equatorial in Heq. simpl in Heq. apply andb_prop in Heq as [Hz _].
    destruct (calculate_acceleration_ret x y z) as (acc & Ha & _).
    exists acc. split; [exact Ha |].
    exact (acceleration_z_zero x y z Hz Hreg acc Ha).
  - intros t. destruct (get_derivatives_6 t s0 Hs) as (d & Hd & _ & _ & _).
    exists d. split; [exact Hd |].
    exact (derivatives_equatorial t s0 Hs Heq Hreg d Hd).
  - destruct (rk4_loop_equatorial N dt 0 s0 Hs Hdt Heq Hstages) as (ts & hist & Hl & Hall).
    exists (0 :: ts), (s0 :: hist). unfold runge_kutta_4. rewrite Hl. cbn [bind].
    split; [reflexivity | constructor; assumption].
Qed.

Lemma equatorial_plane_invariant_witness :
  (List.length state_test = 6%nat /\ ffin 60 = true /\ equatorial state_test = true /\
   regular_position (firstn 3 state_test) = true /\
   stages_regular 60 60 0 state_test = true) /\
  ((exists a, calculate_acceleration (firstn 3 state_test) = Ret a /\
              fzero (nth 2 a 1) = true) /\
   (forall t, exists d, get_derivatives t state_test = Ret d /\ equatorial d = true) /\
   (exists ts hist, runge_kutta_4 state_test 60 60 = Ret (ts, hist) /\
                    Forall (fun q => equatorial q = true) hist)).
Proof.
  split; [repeat split; vm_compute; reflexivity |].
  apply (equatorial_plane_invariant state_test 60 60); vm_compute; reflexivity.
Defined.

(** * The orchestrator *)

Section OrchestratorFacts.

Variable sat_at : Satellite -> float -> Exc (list float * list float).

Lemma bind_ret {A B} (m : Exc A) (f : A -> Exc B) (b : B) :
  bind m f = Ret b -> exists a, m = Ret a /\ f a = Ret b.
Proof. destruct m as [a | e]; simpl; [eauto | discriminate]. Qed.

Lemma simulate_all_ret (sats : list Satellite) dfs :
  simulate_all sat_at sats = Ret dfs ->
  Forall2 (fun satellite df => simulate_object sat_at satellite = Ret df) sats dfs.
Proof.
  revert dfs. induction sats as [| sat sats IH]; intros dfs H; simpl in H.
  - injection H as <-. constructor.
  - apply bind_ret in H as (df & Hdf & H). apply bind_ret in H as (rest & Hrest & H).
    injection H as <-. constructor; [exact Hdf | apply IH; exact Hrest].
Qed.

Lemma reference_positions_ret (satellite : Satellite) (t0 : float) (times : list Z) refs :
  reference_positions sat_at satellite t0 times = Ret refs ->
  forall k, In k times ->
  exists rv, sat_at satellite (t0 + float_of_nat (Z.to_nat k) / 86400) = Ret rv.
Proof.
  revert refs. induction times as [| k' times IH]; intros refs H k Hk; [destruct Hk |].
  simpl in H. apply bind_ret in H as ([r_vector v_vector] & Hat & H).
  destruct Hk as [<- | Hk]; [eauto |].
  destruct (Nat.eqb (List.length r_vector) 3); [| discriminate].
  apply bind_ret in H as (rest & Hrest & _). exact (IH rest Hrest k Hk).
Qed.

Lemma simulate_object_ret (satellite : Satellite) df :
  simulate_object sat_at satellite = Ret df ->
  exists t0 s0 ts hist refs err,
    get_initial_state_and_time sat_at satellite = Ret (t0, s0) /\
    runge_kutta_4 s0 60 NUM_STEPS = Ret (ts, hist) /\
    reference_positions sat_at satellite t0 time_series = Ret refs /\
    rows_of satellite err hist time_series = Ret df.
Proof.
  unfold simulate_object. intros H.
  apply bind_ret in H as ([t0 s0] & Hinit & H).
  apply bind_ret in H as ([ts hist] & Hrk & H).
  apply bind_ret in H as (refs & Hrefs & H).
  apply bind_ret in H as (diff & _ & H).
  exists t0, s0, ts, hist, refs, (norm diff). repeat split; assumption.
Qed.

Lemma rows_of_ret (satellite : Satellite) (err : float) hist times rows :
  rows_of satellite err hist times = Ret rows ->
  List.length rows = List.length hist /\
  forall row, In row rows ->
    In (row_state row) hist /\ satellite_name row = sat_name satellite /\
    satellite_id row = sat_satnum satellite.
Proof.
  revert times rows. induction hist as [| st hist IH]; intros times rows H.
  - simpl in H. injection H as <-. split; [reflexivity | intros row []].
  - destruct times as [| k times]; simpl in H; [discriminate |].
    apply bind_ret in H as (r & Hr & H). apply bind_ret in H as (rs & Hrs & H).
    injection H as <-. destruct (IH times rs Hrs) as [Hlen Hin].
    split; [simpl; congruence |].
    unfold row_of in Hr.
    destruct st as [| a [| b [| c [| d [| e [| f [| g l]]]]]]]; try discriminate.
    injection Hr as <-. intros row [<- | Hrow].
    + simpl. repeat split. left. reflexivity.
    + destruct (Hin row Hrow) as (H1 & H2 & H3). repeat split; try assumption.
      right. exact H1.
Qed.

Lemma run_ret (sats : list Satellite) rows :
  run_multi_object_simulation_and_validate sat_at sats = Ret rows ->
  exists dfs, rows = List.concat dfs /\
    Forall2 (fun satellite df => simulate_object sat_at satellite = Ret df) sats dfs.
Proof.
  unfold run_multi_object_simulation_and_validate. intros H.
  apply bind_ret in H as (dfs & Hall & H).
  exists dfs. split; [| apply simulate_all_ret; exact Hall].
  destruct dfs; simpl in H; [discriminate | injection H as <-; reflexivity].
Qed.

Lemma Forall2_in_l {A B} (P : A -> B -> Prop) xs ys x :
  Forall2 P xs ys -> In x xs -> exists y, In y ys /\ P x y.
Proof.
  intros H. induction H as [| a b xs ys Hab _ IH]; intros Hx; [destruct Hx |].
  destruct Hx as [<- | Hx].
  - exists b. split; [left; reflexivity | exact Hab].
  - destruct (IH Hx) as (y & Hy & Hp). exists y. split; [right; exact Hy | exact Hp].
Qed.

Lemma Forall2_in_r {A B} (P : A -> B -> Prop) xs ys y :
  Forall2 P xs ys -> In y ys -> exists x, In x xs /\ P x y.
Proof.
  intros H. induction H as [| a b xs ys Hab _ IH]; intros Hy; [destruct Hy |].
  destruct Hy as [<- | Hy].
  - exists a. split; [left; reflexivity | exact Hab].
  - destruct (IH Hy) as (x & Hx & Hp). exists x. split; [right; exact Hx | exact Hp].
Qed.

(** Every successful batch has [61] rows per object. *)
Lemma batch_row_count (sats : list Satellite) rows :
  run_multi_object_simulation_and_validate sat_at sats = Ret rows ->
  List.length rows = (List.length sats * S NUM_STEPS)%nat.
Proof.
  intros H. destruct (run_ret sats rows H) as (dfs & -> & Hall). clear H.
  induction Hall as [| sat df sats dfs Hdf Hall IH]; [reflexivity |].
  cbn [List.concat List.length]. rewrite length_app, IH.
  destruct (simulate_object_ret sat df Hdf)
    as (t0 & s0 & ts & hist & refs & err & _ & Hrk & _ & Hrows).
  destruct (rows_of_ret sat err hist time_series df Hrows) as [Hlen _].
  destruct (runge_kutta_4_length s0 60 NUM_STEPS ts hist Hrk) as [_ Hh].
  lia.
Qed.

End OrchestratorFacts.

(** C7 fails: a reference lookup that raises for [SAT-A] (its queries after
    the epoch) aborts the whole batch [[SAT-A; SAT-B]]: the run raises and
    returns no consolidated result, [SAT-B] included. *)
Lemma reference_failure_counterexample :
  run_multi_object_simulation_and_validate failing_sat_at [sat_A; sat_B]
  = Raise (External "reference propagator unavailable").
Proof. vm_compute. reflexivity. Qed.

(** C7 (as the code does it): if, for some object of the batch, one of the
    reference queries at [epoch + time_series[k] / 86400] raises, then
    [run_multi_object_simulation_and_validate] raises: the batch is aborted
    and no result is returned. *)
Theorem reference_failure_aborts_batch
  (sat_at : Satellite -> float -> Exc (list float * list float))
  (sats : list Satellite) (satellite : Satellite) (t0 : float) (s0 : list float)
  (k : Z) (e : PyError) :
  In satellite sats ->
  get_initial_state_and_time sat_at satellite = Ret (t0, s0) ->
  In k time_series ->
  sat_at satellite (t0 + float_of_nat (Z.to_nat k) / 86400) = Raise e ->
  exists e', run_multi_object_simulation_and_validate sat_at sats = Raise e'.
Proof.
  intros Hin Hinit Hk Hfail.
  destruct (run_multi_object_simulation_and_validate sat_at sats) as [rows | e'] eqn:Hrun;
    [| exists e'; reflexivity].
  exfalso. destruct (run_ret sat_at sats rows Hrun) as (dfs & _ & Hall).
  destruct (Forall2_in_l _ _ _ _ Hall Hin) as (df & _ & Hdf).
  destruct (simulate_object_ret sat_at satellite df Hdf)
    as (t0' & s0' & ts & hist & refs & err & Hinit' & _ & Hrefs & _).
  rewrite Hinit in Hinit'. injection Hinit' as <- <-.
  destruct (reference_positions_ret sat_at satellite t0 time_series refs Hrefs k Hk)
    as (rv & Hrv).
  rewrite Hfail in Hrv. discriminate.
Qed.

Lemma reference_failure_aborts_batch_witness :
  (In sat_A [sat_A; sat_B] /\
   get_initial_state_and_time failing_sat_at sat_A = Ret (2460000.5, state_test) /\
   In 60%Z time_series /\
   failing_sat_at sat_A (2460000.5 + float_of_nat (Z.to_nat 60) / 86400)
   = Raise (External "reference propagator unavailable")) /\
  exists e', run_multi_object_simulation_and_validate failing_sat_at [sat_A; sat_B] = Raise e'.
Proof.
  split.
  - split; [left; reflexivity |]. split; [vm_compute; reflexivity |].
    split; [vm_compute; right; left; reflexivity | vm_compute; reflexivity].
  - apply (reference_failure_aborts_batch failing_sat_at [sat_A; sat_B] sat_A
             2460000.5 state_test 60 (External "reference propagator unavailable")).
    + left; reflexivity.
    + vm_compute; reflexivity.
    + vm_compute; right; left; reflexivity.
    + vm_compute; reflexivity.
Defined.

(** C8 fails: an object whose initial position is the origin gets a NaN
    trajectory from the first step on, and the run returns its 61 rows as
    they are, NaN positions included, with no flag (the rows have none). *)
Lemma divergence_counterexample :
  run_multi_object_simulation_and_validate origin_sat_at [sat_A] = Ret origin_rows /\
  List.length origin_rows = 61%nat /\
  existsb (fun row => negb (ffin (rx row))) origin_rows = true.
Proof. split; [| split]; vm_compute; reflexivity. Qed.

Lemma Forall_last {A} (P : A -> Prop) (l : list A) (d : A) :
  Forall P l -> l <> [] -> P (last l d).
Proof.
  intros H Hne. induction H as [| a l Ha Hl IH]; [contradiction |].
  destruct l as [| b l]; [exact Ha |].
  change (P (last (b :: l) d)). apply IH. discriminate.
Qed.

Section OrchestratorTotal.

Variable sat_at : Satellite -> float -> Exc (list float * list float).

Lemma reference_positions_total (satellite : Satellite) (t0 : float) (times : list Z) :
  Forall (fun k => exists rv vv,
    sat_at satellite (t0 + float_of_nat (Z.to_nat k) / 86400) = Ret (rv, vv) /\
    List.length rv = 3%nat) times ->
  exists refs, reference_positions sat_at satellite t0 times = Ret refs /\
    List.length refs = List.length times /\ Forall (fun r => List.length r = 3%nat) refs.
Proof.
  induction 1 as [| k times (rv & vv & Hat & Hl) _ (refs & Hrefs & Hlen & Hall)].
  - exists []. repeat split; constructor.
  - exists (rv :: refs). simpl. rewrite Hat. cbn [bind].
    replace (Nat.eqb (List.length rv) 3) with true by (symmetry; apply Nat.eqb_eq; exact Hl).
    rewrite Hrefs. cbn [bind]. repeat split; [simpl; congruence | constructor; assumption].
Qed.

Lemma rows_of_total (satellite : Satellite) (err : float) hist times :
  Forall (fun q => List.length q = 6%nat) hist ->
  (List.length hist <= List.length times)%nat ->
  exists rows, rows_of satellite err hist times = Ret rows /\
    map row_state rows = hist /\
    Forall (fun row => satellite_name row = sat_name satellite /\
                       satellite_id row = sat_satnum satellite) rows.
Proof.
  intros H. revert times. induction H as [| st hist Hst _ IH]; intros times Hlen.
  - exists []. repeat split; constructor.
  - destruct times as [| k times]; simpl in Hlen; [lia |].
    destruct (IH times ltac:(lia)) as (rows & Hrows & Hmap & Hid).
    destruct st as [| a [| b [| c [| d [| e [| f [| g l]]]]]]]; simpl in Hst; try lia.
    eexists. simpl. rewrite Hrows. cbn [bind].
    split; [reflexivity |]. simpl. rewrite Hmap.
    split; [reflexivity | constructor; [split; reflexivity | exact Hid]].
Qed.

(** What the code needs of one object to produce its block: its initial
    state has 6 entries and every reference query returns a 3-entry
    position; nothing about the values. *)
Lemma simulate_object_total (satellite : Satellite) t0 s0 :
  get_initial_state_and_time sat_at satellite = Ret (t0, s0) ->
  List.length s0 = 6%nat ->
  Forall (fun k => exists rv vv,
    sat_at satellite (t0 + float_of_nat (Z.to_nat k) / 86400) = Ret (rv, vv) /\
    List.length rv = 3%nat) time_series ->
  exists ts hist df,
    runge_kutta_4 s0 60 NUM_STEPS = Ret (ts, hist) /\
    simulate_object sat_at satellite = Ret df /\
    map row_state df = hist /\
    Forall (fun row => satellite_name row = sat_name satellite /\
                       satellite_id row = sat_satnum satellite) df.
Proof.
  intros Hinit Hs Hrefs.
  destruct (runge_kutta_4_6 s0 60 NUM_STEPS Hs) as (ts & hist & Hrk & _ & Hlh & _ & _ & H6 & _).
  destruct (reference_positions_total satellite t0 time_series Hrefs)
    as (refs & Hr & Hlr & H3).
  assert (Htl : List.length time_series = 61%nat) by (vm_compute; reflexivity).
  destruct (rows_of_total satellite
              (norm (vsub_raw (firstn 3 (last hist [])) (last refs []))) hist time_series H6)
    as (rows & Hrows & Hmap & Hid); [rewrite Hlh, Htl; vm_compute; lia |].
  exists ts, hist, rows. split; [exact Hrk |].
  split; [| split; assumption].
  unfold simulate_object. rewrite Hinit. cbn [bind]. change (float_of_nat (Z.to_nat DELTA_T_SECONDS)) with 60.
  rewrite Hrk. cbn [bind]. rewrite Hr. cbn [bind].
  unfold vsub.
  replace (Nat.eqb _ _) with true.
  - cbn [bind]. exact Hrows.
  - symmetry. apply Nat.eqb_eq.
    rewrite (Forall_last _ refs [] H3) by (intros ->; rewrite Htl in Hlr; discriminate).
    rewrite firstn_length_le; [reflexivity |].
    rewrite (Forall_last _ hist [] H6) by (intros ->; simpl in Hlh; discriminate). lia.
Qed.

Lemma simulate_all_total (sats : list Satellite) :
  Forall (fun satellite => exists t0 s0,
    get_initial_state_and_time sat_at satellite = Ret (t0, s0) /\
    List.length s0 = 6%nat /\
    Forall (fun k => exists rv vv,
      sat_at satellite (t0 + float_of_nat (Z.to_nat k) / 86400) = Ret (rv, vv) /\
      List.length rv = 3%nat) time_series) sats ->
  exists dfs, simulate_all sat_at sats = Ret dfs /\
    Forall2 (fun satellite df => exists t0 s0 ts hist,
      get_initial_state_and_time sat_at satellite = Ret (t0, s0) /\
      runge_kutta_4 s0 60 NUM_STEPS = Ret (ts, hist) /\
      map row_state df = hist /\
      Forall (fun row => satellite_name row = sat_name satellite /\
                         satellite_id row = sat_satnum satellite) df) sats dfs.
Proof.
  induction 1 as [| satellite sats (t0 & s0 & Hinit & Hs & Hrefs) _ (dfs & Hall & H2)].
  - exists []. split; [reflexivity | constructor].
  - destruct (simulate_object_total satellite t0 s0 Hinit Hs Hrefs)
      as (ts & hist & df & Hrk & Hdf & Hmap & Hid).
    exists (df :: dfs). simpl. rewrite Hdf. cbn [bind]. rewrite Hall. cbn [bind].
    split; [reflexivity |]. constructor; [| exact H2].
    exists t0, s0, ts, hist. repeat split; assumption.
Qed.

End OrchestratorTotal.

(** C8 (as the code does it): [run_multi_object_simulation_and_validate]
    performs no divergence check.  For a nonempty batch whose objects each
    have a 6-component initial state and reference queries that return
    3-component positions (nothing is required of the values: they may be
    NaN or infinite, or grow without bound), the run returns, without
    raising, one block of rows per object, in order; the states of each
    block are exactly the object's whole RK4 trajectory ([dt = 60],
    [NUM_STEPS] steps), none dropped, altered or reordered, so non-finite
    states are included as computed; each row carries only the object's
    name and catalog number besides, and rows have no anomaly flag. *)
Theorem rows_are_unchecked_trajectory_states
  (sat_at : Satellite -> float -> Exc (list float * list float))
  (sats : list Satellite) :
  sats <> [] ->
  Forall (fun satellite => exists t0 s0,
    get_initial_state_and_time sat_at satellite = Ret (t0, s0) /\
    List.length s0 = 6%nat /\
    Forall (fun k => exists rv vv,
      sat_at satellite (t0 + float_of_nat (Z.to_nat k) / 86400) = Ret (rv, vv) /\
      List.length rv = 3%nat) time_series) sats ->
  exists dfs,
    run_multi_object_simulation_and_validate sat_at sats = Ret (List.concat dfs) /\
    Forall2 (fun satellite df => exists t0 s0 ts hist,
      get_initial_state_and_time sat_at satellite = Ret (t0, s0) /\
      runge_kutta_4 s0 60 NUM_STEPS = Ret (ts, hist) /\
      map row_state df = hist /\
      Forall (fun row => satellite_name row = sat_name satellite /\
                         satellite_id row = sat_satnum satellite) df) sats dfs.
Proof.
  intros Hne Hok.
  destruct (simulate_all_total sat_at sats Hok) as (dfs & Hall & H2).
  exists dfs. split; [| exact H2].
  unfold run_multi_object_simulation_and_validate. rewrite Hall. cbn [bind].
  destruct dfs as [| df dfs]; [| reflexivity].
  inversion H2; subst. contradiction.
Qed.

(** On the batch whose object starts at the origin, every state after the
    first is NaN, and all 61 are returned. *)
Lemma rows_are_unchecked_trajectory_states_witness :
  ([sat_A] <> [] /\
   Forall (fun satellite => exists t0 s0,
     get_initial_state_and_time origin_sat_at satellite = Ret (t0, s0) /\
     List.length s0 = 6%nat /\
     Forall (fun k => exists rv vv,
       origin_sat_at satellite (t0 + float_of_nat (Z.to_nat k) / 86400) = Ret (rv, vv) /\
       List.length rv = 3%nat) time_series) [sat_A]) /\
  exists dfs,
    run_multi_object_simulation_and_validate origin_sat_at [sat_A] = Ret (List.concat dfs) /\
    Forall2 (fun satellite df => exists t0 s0 ts hist,
      get_initial_state_and_time origin_sat_at satellite = Ret (t0, s0) /\
      runge_kutta_4 s0 60 NUM_STEPS = Ret (ts, hist) /\
      map row_state df = hist /\
      Forall (fun row => satellite_name row = sat_name satellite /\
                         satellite_id row = sat_satnum satellite) df) [sat_A] dfs.
Proof.
  assert (Hok : Forall (fun satellite => exists t0 s0,
     get_initial_state_and_time origin_sat_at satellite = Ret (t0, s0) /\
     List.length s0 = 6%nat /\
     Forall (fun k => exists rv vv,
       origin_sat_at satellite (t0 + float_of_nat (Z.to_nat k) / 86400) = Ret (rv, vv) /\
       List.length rv = 3%nat) time_series) [sat_A]).
  { constructor; [| constructor].
    exists 2460000.5, [0; 0; 0; 0; 7.546; 0].
    split; [reflexivity |]. split; [reflexivity |].
    apply Forall_forall. intros k _. exists [0; 0; 0], [0; 7.546; 0].
    split; reflexivity. }
  split; [split; [discriminate | exact Hok] |].
  apply (rows_are_unchecked_trajectory_states origin_sat_at [sat_A]);
    [discriminate | exact Hok].
Defined.

(** C9 fails on the empty batch: with [list_of_satellites = []] the
    consolidated result should have [0 * 61 = 0] rows, but [pd.concat] of
    the empty [all_results] raises [ValueError]. *)
Theorem empty_batch_raises
  (sat_at : Satellite -> float -> Exc (list float * list float)) :
  run_multi_object_simulation_and_validate sat_at []
  = Raise (ValueError "No objects to concatenate").
Proof. reflexivity. Qed.

(** * Further properties of the code *)

(** ** Signs in binary64 arithmetic *)

Lemma binary_round_negb (s : bool) (m : positive) (e : Z) :
  binary_round prec emax (negb s) m e = SFopp (binary_round prec emax s m e).
Proof.
  unfold binary_round.
  destruct (shl_align m e _) as [mz ez]. apply binary_round_aux_negb.
Qed.

Lemma SFopp_involutive (x : spec_float) : SFopp (SFopp x) = x.
Proof. destruct x; simpl; rewrite ?negb_involutive; reflexivity. Qed.

Lemma SF64mul_opp_r (x y : spec_float) : SF64mul x (SFopp y) = SFopp (SF64mul x y).
Proof.
  destruct x as [sa | sa | | sa ma ea]; destruct y as [sb | sb | | sb mb eb];
  [ .. | unfold SF64mul, SFmul; cbn [SFopp];
         replace (xorb sa (negb sb)) with (negb (xorb sa sb)) by (destruct sa, sb; reflexivity);
         apply binary_round_aux_negb ].
  all: cbn; repeat match goal with b : bool |- _ => destruct b end; reflexivity.
Qed.

Lemma SF64mul_opp_l (x y : spec_float) : SF64mul (SFopp x) y = SFopp (SF64mul x y).
Proof.
  destruct x as [sa | sa | | sa ma ea]; destruct y as [sb | sb | | sb mb eb];
  [ .. | unfold SF64mul, SFmul; cbn [SFopp];
         replace (xorb (negb sa) sb) with (negb (xorb sa sb)) by (destruct sa, sb; reflexivity);
         apply binary_round_aux_negb ].
  all: cbn; repeat match goal with b : bool |- _ => destruct b end; reflexivity.
Qed.

Lemma mul_opp_r (a b : float) : a * (- b) = - (a * b).
Proof. apply Prim2SF_inj. rewrite mul_spec, !opp_spec, mul_spec. apply SF64mul_opp_r. Qed.

Lemma mul_opp_l (a b : float) : (- a) * b = - (a * b).
Proof. apply Prim2SF_inj. rewrite mul_spec, !opp_spec, mul_spec. apply SF64mul_opp_l. Qed.

Lemma opp_involutive (a : float) : - - a = a.
Proof. apply Prim2SF_inj. rewrite !opp_spec. apply SFopp_involutive. Qed.

Lemma mul_opp_opp (a b : float) : (- a) * (- b) = a * b.
Proof. rewrite mul_opp_l, mul_opp_r, opp_involutive. reflexivity. Qed.

Lemma cond_Zopp_negb (s : bool) (m : Z) : cond_Zopp (negb s) m = (- cond_Zopp s m)%Z.
Proof. destruct s; simpl; lia. Qed.

Lemma binary_normalize_opp (m e : Z) :
  binary_normalize prec emax (- m) e false = SFopp (binary_normalize prec emax m e false)
  \/ (m = 0%Z /\ binary_normalize prec emax (- m) e false = S754_zero false
      /\ binary_normalize prec emax m e false = S754_zero false).
Proof.
  destruct m as [| p | p]; simpl.
  - right. auto.
  - left. apply (binary_round_negb false).
  - left. rewrite <- (SFopp_involutive (binary_round prec emax false p e)).
    rewrite <- (binary_round_negb false). reflexivity.
Qed.

(** Negating both operands negates the sum, except when the sum is an exact
    zero (then both sums are [+0.0]). *)
Lemma SF64add_opp (x y : spec_float) :
  SF64add (SFopp x) (SFopp y) = SFopp (SF64add x y) \/
  (SFzero (SF64add (SFopp x) (SFopp y)) = true /\ SFzero (SF64add x y) = true).
Proof.
  destruct x as [sa | sa | | sa ma ea]; destruct y as [sb | sb | | sb mb eb];
  [ .. | unfold SF64add, SFadd; cbn [SFopp]; rewrite !cond_Zopp_negb, <- Z.opp_add_distr;
         destruct (binary_normalize_opp
           (cond_Zopp sa (Zpos (fst (shl_align ma ea (Z.min ea eb))))
            + cond_Zopp sb (Zpos (fst (shl_align mb eb (Z.min ea eb)))))%Z (Z.min ea eb))
           as [H | (_ & H1 & H2)];
         [left; exact H | right; rewrite H1, H2; split; reflexivity] ].
  all: cbn; repeat match goal with b : bool |- _ => destruct b end; auto.
Qed.

Lemma add_opp (a b : float) :
  (- a) + (- b) = - (a + b) \/ (fzero ((- a) + (- b)) = true /\ fzero (a + b) = true).
Proof.
  destruct (SF64add_opp (Prim2SF a) (Prim2SF b)) as [H | [H1 H2]].
  - left. apply Prim2SF_inj. rewrite add_spec, !opp_spec, add_spec. exact H.
  - right. unfold fzero. rewrite !add_spec, !opp_spec.
    unfold SFzero in H1, H2. split.
    + destruct (SF64add (SFopp (Prim2SF a)) (SFopp (Prim2SF b))); easy.
    + destruct (SF64add (Prim2SF a) (Prim2SF b)); easy.
Qed.

Lemma add_opp_or_zeros (p q : float) : opp_or_zeros (p + q) ((- p) + (- q)).
Proof. unfold opp_or_zeros. destruct (add_opp p q) as [H | [H1 H2]]; auto. Qed.

(** ** The force model *)

(** X2: mirror symmetry about the equatorial plane, exactly in binary64:
    [calculate_acceleration(x, y, -z)] has the same x- and y-components as
    [calculate_acceleration(x, y, z)] and the opposite z-component (or both
    z-components are zeros). *)
Theorem calculate_acceleration_equator_mirror (x y z : float) :
  exists ax ay az az',
    calculate_acceleration [x; y; z] = Ret [ax; ay; az] /\
    calculate_acceleration [x; y; - z] = Ret [ax; ay; az'] /\
    opp_or_zeros az az'.
Proof.
  unfold calculate_acceleration, norm. cbv zeta.
  rewrite !vadd_eq by reflexivity. cbn [fold_left fpow smul map vadd_raw].
  rewrite !mul_opp_opp, !mul_opp_r, !mul_opp_l.
  do 4 eexists. split; [reflexivity | split; [reflexivity |]].
  apply add_opp_or_zeros.
Qed.

(** X3: point symmetry through the Earth's centre, exactly in binary64:
    each component of [calculate_acceleration(-r)] is the opposite of the
    same component of [calculate_acceleration(r)] (or both are zeros). *)
Theorem calculate_acceleration_point_symmetry (x y z : float) :
  exists ax ay az ax' ay' az',
    calculate_acceleration [x; y; z] = Ret [ax; ay; az] /\
    calculate_acceleration [- x; - y; - z] = Ret [ax'; ay'; az'] /\
    opp_or_zeros ax ax' /\ opp_or_zeros ay ay' /\ opp_or_zeros az az'.
Proof.
  unfold calculate_acceleration, norm. cbv zeta.
  rewrite !vadd_eq by reflexivity. cbn [fold_left fpow smul map vadd_raw].
  rewrite !mul_opp_opp, !mul_opp_r, !mul_opp_l.
  do 6 eexists. split; [reflexivity | split; [reflexivity |]].
  repeat split; apply add_opp_or_zeros.
Qed.

(** ** Shapes accepted by the derivative function and the integrator *)

Lemma get_derivatives_len (t : float) (s : list float) :
  (3 <= List.length s)%nat ->
  exists d, get_derivatives t s = Ret d /\ List.length d = Nat.min (List.length s) 6.
Proof.
  intros H.
  destruct s as [| x [| y [| z s]]]; simpl in H; try lia.
  unfold get_derivatives. cbn [firstn skipn].
  destruct (calculate_acceleration_ret x y z) as (a & Ha & La).
  rewrite Ha. cbn [bind]. eexists. split; [reflexivity |].
  rewrite length_app, La. destruct s as [| p [| q [| w s]]]; simpl; lia.
Qed.

Lemma get_derivatives_short (t : float) (s : list float) :
  (List.length s < 3)%nat ->
  get_derivatives t s = Raise (ValueError "wrong number of values to unpack").
Proof.
  intros H. destruct s as [| x [| y [| z s]]]; simpl in H; try lia; reflexivity.
Qed.

Ltac len_solve_all :=
  repeat match goal with
  | H : context [List.length (vadd_raw _ _)] |- _ => rewrite vadd_raw_length in H
  | H : context [List.length (smul _ _)] |- _ => rewrite smul_length in H
  end;
  len_solve.

(** Runs the [let*] chain of an RK4 step on arrays of 3 to 6 entries. *)
Ltac run_step_len :=
  repeat match goal with
  | |- context [get_derivatives ?t ?s] =>
      let d := fresh "d" in let Hd := fresh "Hd" in let Hl := fresh "Hl" in
      destruct (get_derivatives_len t s ltac:(len_solve_all)) as (d & Hd & Hl);
      rewrite Hd; cbn [bind]
  | |- context [vadd ?u ?v] => rewrite (vadd_eq u v) by len_solve_all; cbn [bind]
  end.

Lemma rk4_step_len (t dt : float) (s : list float) :
  (3 <= List.length s <= 6)%nat ->
  exists s', rk4_step t dt s = Ret s' /\ List.length s' = List.length s.
Proof.
  intros H. unfold rk4_step. run_step_len. eexists. split; [reflexivity | len_solve_all].
Qed.

Lemma rk4_step_bad (t dt : float) (s : list float) :
  (List.length s < 3 \/ 6 < List.length s)%nat -> exists e, rk4_step t dt s = Raise e.
Proof.
  intros [H | H]; unfold rk4_step.
  - rewrite get_derivatives_short by exact H. eexists; reflexivity.
  - destruct (get_derivatives_len t s ltac:(lia)) as (d & Hd & Hl). rewrite Hd. cbn [bind].
    unfold vadd. replace (Nat.eqb _ _) with false.
    + eexists; reflexivity.
    + symmetry. apply Nat.eqb_neq. rewrite !smul_length. lia.
Qed.

Lemma rk4_loop_len (n : nat) (dt t : float) (s : list float) :
  (3 <= List.length s <= 6)%nat -> exists ts hist, rk4_loop n dt t s = Ret (ts, hist).
Proof.
  revert t s. induction n as [| n IH]; intros t s Hs; [do 2 eexists; reflexivity |].
  destruct (rk4_step_len t dt s Hs) as (s' & Hstep & Hl).
  destruct (IH (t + dt) s') as (ts & hist & Hloop); [lia |].
  simpl. rewrite Hstep. cbn [bind]. rewrite Hloop. cbn [bind]. do 2 eexists; reflexivity.
Qed.

(** X5: [runge_kutta_4(s0, dt, 0)] returns [([0.0], [s0])] for every array
    [s0]; with at least one step, [runge_kutta_4(s0, dt, N)] returns exactly
    when [s0] has 3 to 6 entries, and raises otherwise (an unpacking error
    below 3 entries, a shape mismatch in [state_current + 0.5 * k1] above
    6). *)
Theorem runge_kutta_4_accepted_lengths (s0 : list float) (dt : float) :
  runge_kutta_4 s0 dt 0 = Ret ([0], [s0]) /\
  forall N, (exists r, runge_kutta_4 s0 dt (S N) = Ret r) <->
            (3 <= List.length s0 <= 6)%nat.
Proof.
  split; [reflexivity |]. intros N. split.
  - intros (r & Hr). unfold runge_kutta_4 in Hr. simpl in Hr.
    destruct (Nat.lt_ge_cases (List.length s0) 3) as [H | H].
    + destruct (rk4_step_bad 0 dt s0 (or_introl H)) as (e & He). rewrite He in Hr.
      discriminate.
    + destruct (Nat.le_gt_cases (List.length s0) 6) as [H' | H']; [lia |].
      destruct (rk4_step_bad 0 dt s0 (or_intror H')) as (e & He). rewrite He in Hr.
      discriminate.
  - intros H. destruct (rk4_loop_len (S N) dt 0 s0 H) as (ts & hist & Hl).
    unfold runge_kutta_4. rewrite Hl. eexists; reflexivity.
Qed.

(** ** Restarting the integrator *)

Lemma rk4_step_time (t t' dt : float) (s : list float) : rk4_step t dt s = rk4_step t' dt s.
Proof. reflexivity. Qed.

(** The states of the loop do not depend on its start time. *)
Lemma rk4_loop_time (n : nat) (dt t t' : float) (s : list float) ts hist :
  rk4_loop n dt t s = Ret (ts, hist) -> exists ts', rk4_loop n dt t' s = Ret (ts', hist).
Proof.
  revert t t' s ts hist. induction n as [| n IH]; intros t t' s ts hist H; simpl in *.
  - injection H as <- <-. eexists; reflexivity.
  - rewrite (rk4_step_time t' t). destruct (rk4_step t dt s) as [s' |]; [| discriminate].
    cbn [bind] in *.
    destruct (rk4_loop n dt (t + dt) s') as [[ts1 h1] |] eqn:E; [| discriminate].
    cbn [bind] in H. injection H as <- <-.
    destruct (IH _ (t' + dt) _ _ _ E) as (ts' & E'). rewrite E'. cbn [bind].
    eexists; reflexivity.
Qed.

Lemma rk4_loop_split (N M : nat) (dt t : float) (s : list float) ts hist :
  rk4_loop (N + M) dt t s = Ret (ts, hist) ->
  exists ts1 hist1 ts2 hist2,
    rk4_loop N dt t s = Ret (ts1, hist1) /\
    rk4_loop M dt (last (t :: ts1) 0) (last (s :: hist1) []) = Ret (ts2, hist2) /\
    ts = ts1 ++ ts2 /\ hist = hist1 ++ hist2.
Proof.
  revert t s ts hist. induction N as [| N IH]; intros t s ts hist H.
  - exists [], [], ts, hist. simpl in *. repeat split; assumption.
  - simpl in H. destruct (rk4_step t dt s) as [s' |] eqn:Es; [| discriminate].
    cbn [bind] in H.
    destruct (rk4_loop (N + M) dt (t + dt) s') as [[ts' h'] |] eqn:E; [| discriminate].
    cbn [bind] in H. injection H as <- <-.
    destruct (IH _ _ _ _ E) as (ts1 & hist1 & ts2 & hist2 & H1 & H2 & -> & ->).
    exists (t + dt :: ts1), (s' :: hist1), ts2, hist2. simpl. rewrite Es. cbn [bind].
    rewrite H1. cbn [bind]. repeat split; try reflexivity.
    destruct ts1, hist1; exact H2.
Qed.

(** X6: propagating [N + M] steps is propagating [N] steps and restarting
    from the last state for [M] more: whenever [runge_kutta_4(s0, dt, N + M)]
    returns [(ts, hist)], [runge_kutta_4(s0, dt, N)] returns the first
    [N + 1] times and states, [runge_kutta_4(hist[N], dt, M)] returns, and
    [hist] is the first run's states followed by the restart's states after
    its first.  The times of the restart start again from [0.0]; the states
    do not depend on them. *)
Theorem runge_kutta_4_restart (s0 : list float) (dt : float) (N M : nat) ts hist :
  runge_kutta_4 s0 dt (N + M) = Ret (ts, hist) ->
  exists ts1 hist1 ts2 hist2,
    runge_kutta_4 s0 dt N = Ret (ts1, hist1) /\
    runge_kutta_4 (last hist1 []) dt M = Ret (ts2, hist2) /\
    hist = hist1 ++ tl hist2 /\ ts1 = firstn (S N) ts.
Proof.
  unfold runge_kutta_4. intros H.
  destruct (rk4_loop (N + M) dt 0 s0) as [[ts' h'] |] eqn:E; [| discriminate].
  cbn [bind] in H. injection H as <- <-.
  destruct (rk4_loop_split N M dt 0 s0 ts' h' E)
    as (ts1 & hist1 & ts2 & hist2 & H1 & H2 & -> & ->).
  destruct (rk4_loop_time _ _ _ 0 _ _ _ H2) as (ts2' & H2').
  exists (0 :: ts1), (s0 :: hist1), (0 :: ts2'), (last (s0 :: hist1) [] :: hist2).
  rewrite H1. cbn [bind]. rewrite H2'. cbn [bind]. repeat split.
  destruct (rk4_loop_length _ _ _ _ _ _ H1) as [Hl _].
  cbn [firstn app]. f_equal. symmetry.
  rewrite firstn_app, Hl, Nat.sub_diag, firstn_all2 by lia. simpl. apply app_nil_r.
Qed.

Lemma runge_kutta_4_restart_witness :
  runge_kutta_4 state_test 60 (2 + 1) = Ret (sample_ts, sample_hist) /\
  exists ts1 hist1 ts2 hist2,
    runge_kutta_4 state_test 60 2 = Ret (ts1, hist1) /\
    runge_kutta_4 (last hist1 []) 60 1 = Ret (ts2, hist2) /\
    sample_hist = hist1 ++ tl hist2 /\ ts1 = firstn 3 sample_ts.
Proof.
  split; [vm_compute; reflexivity |].
  apply (runge_kutta_4_restart state_test 60 2 1 sample_ts sample_hist).
  vm_compute. reflexivity.
Defined.

(** ** The orchestrator's columns and batches *)

Section OrchestratorColumns.

Variable sat_at : Satellite -> float -> Exc (list float * list float).

Lemma rows_of_time_step (satellite : Satellite) (err : float) hist times rows :
  rows_of satellite err hist times = Ret rows ->
  map time_step rows = firstn (List.length hist) times /\
  Forall (fun row => error_km row = err) rows.
Proof.
  revert times rows. induction hist as [| st hist IH]; intros times rows H.
  - simpl in H. injection H as <-. split; [reflexivity | constructor].
  - destruct times as [| k times]; simpl in H; [discriminate |].
    apply bind_ret in H as (r & Hr & H). apply bind_ret in H as (rs & Hrs & H).
    injection H as <-. destruct (IH times rs Hrs) as [H1 H2].
    unfold row_of in Hr.
    destruct st as [| a [| b [| c [| d [| e [| f [| g l]]]]]]]; try discriminate.
    injection Hr as <-. simpl. rewrite H1.
    split; [reflexivity | constructor; [reflexivity | exact H2]].
Qed.

Lemma time_series_values : time_series = map (fun k => 60 * Z.of_nat k)%Z (seq 0 61).
Proof. vm_compute. reflexivity. Qed.

Lemma reference_positions_nth (satellite : Satellite) (t0 : float) (times : list Z) refs :
  reference_positions sat_at satellite t0 times = Ret refs ->
  List.length refs = List.length times /\
  forall i, (i < List.length times)%nat ->
  exists v, sat_at satellite (t0 + float_of_nat (Z.to_nat (nth i times 0%Z)) / 86400)
            = Ret (nth i refs [], v) /\ List.length (nth i refs []) = 3%nat.
Proof.
  revert refs. induction times as [| k times IH]; intros refs H.
  - simpl in H. injection H as <-. split; [reflexivity | intros i Hi; simpl in Hi; lia].
  - simpl in H. apply bind_ret in H as ([r_vector v_vector] & Hat & H).
    destruct (Nat.eqb (List.length r_vector) 3) eqn:E; [| discriminate].
    apply bind_ret in H as (rest & Hrest & H). injection H as <-.
    destruct (IH rest Hrest) as [Hl Hn]. split; [simpl; congruence |].
    intros [| i] Hi.
    + exists v_vector. split; [exact Hat | apply Nat.eqb_eq; exact E].
    + apply Hn. simpl in Hi. lia.
Qed.

Lemma simulate_all_app (sats1 sats2 : list Satellite) :
  simulate_all sat_at (sats1 ++ sats2) =
  (let* dfs1 := simulate_all sat_at sats1 in
   let* dfs2 := simulate_all sat_at sats2 in
   Ret (dfs1 ++ dfs2)).
Proof.
  induction sats1 as [| sat sats1 IH]; simpl.
  - destruct (simulate_all sat_at sats2); reflexivity.
  - destruct (simulate_object sat_at sat) as [df |]; [| reflexivity]. cbn [bind].
    rewrite IH. destruct (simulate_all sat_at sats1) as [dfs1 |]; [| reflexivity].
    cbn [bind]. destruct (simulate_all sat_at sats2); reflexivity.
Qed.

Lemma simulate_all_length (sats : list Satellite) dfs :
  simulate_all sat_at sats = Ret dfs -> List.length dfs = List.length sats.
Proof.
  intros H. apply simulate_all_ret in H. apply Forall2_length in H. congruence.
Qed.

End OrchestratorColumns.

(** X7: the [time_step] column of every object's block of rows is
    [0, 60, 120, ..., 3600] (61 rows, in order), whatever the object. *)
Theorem object_time_step_column
  (sat_at : Satellite -> float -> Exc (list float * list float))
  (satellite : Satellite) (df : list Row) :
  simulate_object sat_at satellite = Ret df ->
  map time_step df = map (fun k => 60 * Z.of_nat k)%Z (seq 0 61).
Proof.
  intros H.
  destruct (simulate_object_ret sat_at satellite df H)
    as (t0 & s0 & ts & hist & refs & err & _ & Hrk & _ & Hrows).
  destruct (rows_of_time_step satellite err hist time_series df Hrows) as [Hmap _].
  destruct (runge_kutta_4_length s0 60 NUM_STEPS ts hist Hrk) as [_ Hl].
  rewrite Hmap, Hl, time_series_values. reflexivity.
Qed.

Lemma object_time_step_column_witness :
  simulate_object circular_sat_at sat_A = Ret circular_df /\
  map time_step circular_df = map (fun k => 60 * Z.of_nat k)%Z (seq 0 61).
Proof.
  split; [vm_compute; reflexivity |].
  apply (object_time_step_column circular_sat_at sat_A circular_df).
  vm_compute. reflexivity.
Defined.

(** X8: every row of an object's block carries the same [error_km]: the
    Euclidean norm of the final RK4 position minus the reference position at
    [t0 + 3600 / 86400], the last reference query; the other 60 reference
    positions do not enter it. *)
Theorem object_error_km
  (sat_at : Satellite -> float -> Exc (list float * list float))
  (satellite : Satellite) (df : list Row) :
  simulate_object sat_at satellite = Ret df ->
  exists t0 s0 ts hist rv vv,
    get_initial_state_and_time sat_at satellite = Ret (t0, s0) /\
    runge_kutta_4 s0 60 NUM_STEPS = Ret (ts, hist) /\
    sat_at satellite (t0 + float_of_nat 3600 / 86400) = Ret (rv, vv) /\
    List.length rv = 3%nat /\
    Forall (fun row => error_km row = norm (vsub_raw (firstn 3 (last hist [])) rv)) df.
Proof.
  unfold simulate_object. intros H.
  apply bind_ret in H as ([t0 s0] & Hinit & H).
  apply bind_ret in H as ([ts hist] & Hrk & H).
  apply bind_ret in H as (refs & Hrefs & H).
  apply bind_ret in H as (diff & Hdiff & H).
  destruct (reference_positions_nth sat_at satellite t0 time_series refs Hrefs) as [Hl Hn].
  destruct (Hn 60%nat ltac:(vm_compute; lia)) as (vv & Hat & Hl3).
  assert (Hlast : last refs [] = nth 60 refs []).
  { rewrite time_series_values in Hl. simpl in Hl.
    do 61 (destruct refs as [| ? refs]; [discriminate |]).
    destruct refs; [reflexivity | discriminate]. }
  exists t0, s0, ts, hist, (nth 60 refs []), vv. repeat split; try assumption.
  destruct (rows_of_time_step satellite (norm diff) hist time_series df H) as [_ Herr].
  rewrite <- Hlast. unfold vsub in Hdiff.
  destruct (Nat.eqb _ _); [| discriminate]. injection Hdiff as <-. exact Herr.
Qed.

Lemma object_error_km_witness :
  simulate_object circular_sat_at sat_A = Ret circular_df /\
  exists t0 s0 ts hist rv vv,
    get_initial_state_and_time circular_sat_at sat_A = Ret (t0, s0) /\
    runge_kutta_4 s0 60 NUM_STEPS = Ret (ts, hist) /\
    circular_sat_at sat_A (t0 + float_of_nat 3600 / 86400) = Ret (rv, vv) /\
    List.length rv = 3%nat /\
    Forall (fun row => error_km row = norm (vsub_raw (firstn 3 (last hist [])) rv))
      circular_df.
Proof.
  split; [vm_compute; reflexivity |].
  apply (object_error_km circular_sat_at sat_A circular_df).
  vm_compute. reflexivity.
Defined.

(** X9: batches compose: for nonempty lists of objects [sats1] and [sats2],
    the run on [sats1 ++ sats2] is the run on [sats1] followed by the run on
    [sats2]: the rows of [sats1], then those of [sats2], and when a run
    raises, the first error met in that order. *)
Theorem run_batch_append (sat_at : Satellite -> float -> Exc (list float * list float))
  (sats1 sats2 : list Satellite) :
  sats1 <> [] -> sats2 <> [] ->
  run_multi_object_simulation_and_validate sat_at (sats1 ++ sats2) =
  (let* rows1 := run_multi_object_simulation_and_validate sat_at sats1 in
   let* rows2 := run_multi_object_simulation_and_validate sat_at sats2 in
   Ret (rows1 ++ rows2)).
Proof.
  intros H1 H2. unfold run_multi_object_simulation_and_validate.
  rewrite simulate_all_app.
  destruct (simulate_all sat_at sats1) as [dfs1 |] eqn:E1; [| reflexivity]. cbn [bind].
  apply simulate_all_length in E1.
  destruct dfs1 as [| df1 dfs1]; [destruct sats1; [contradiction | discriminate] |].
  destruct (simulate_all sat_at sats2) as [dfs2 |] eqn:E2; [| reflexivity]. cbn [bind].
  apply simulate_all_length in E2.
  destruct dfs2 as [| df2 dfs2]; [destruct sats2; [contradiction | discriminate] |].
  cbn [pd_concat app bind]. rewrite <- concat_app. reflexivity.
Qed.

Lemma run_batch_append_witness :
  ([sat_A] <> [] /\ [sat_B] <> []) /\
  run_multi_object_simulation_and_validate failing_sat_at ([sat_A] ++ [sat_B]) =
  (let* rows1 := run_multi_object_simulation_and_validate failing_sat_at [sat_A] in
   let* rows2 := run_multi_object_simulation_and_validate failing_sat_at [sat_B] in
   Ret (rows1 ++ rows2)).
Proof.
  split; [split; discriminate |].
  apply (run_batch_append failing_sat_at [sat_A] [sat_B]); discriminate.
Defined.

(** ** The TLE cache *)

Section TleCacheFacts.

Variable Timescale : Type.
Variable load_timescale : Exc Timescale.
Variable tle_download : FileSys -> FileSys * Exc (list Satellite).
Variable tle_read : FileSys -> Exc (list Satellite).

(** X10: with a cache file younger than [max_days], [load_tles_smart] never
    downloads: it reads the cache and returns [(ts, satellites)], and if that
    read raises it returns [(None, None)] without trying the network. *)
Theorem load_tles_smart_fresh_cache (fs : FileSys) (max_age_us : Z) :
  file_exists fs = true -> (file_age_us fs < max_age_us)%Z ->
  let '(log, fs', result) :=
    load_tles_smart load_timescale tle_download tle_read fs max_age_us in
  ~ In Download log /\
  result = match load_timescale with
           | Raise e => Raise e
           | Ret ts =>
               match tle_read fs' with
               | Ret satellites => Ret (Some ts, Some satellites)
               | Raise _ => Ret (None, None)
               end
           end.
Proof.
  intros Hex Hage. unfold load_tles_smart.
  destruct fs as [dir ex age]. cbn [file_exists file_age_us] in Hex, Hage. subst ex.
  apply Z.ltb_lt in Hage.
  destruct dir; cbn [data_dir_exists file_exists file_age_us]; rewrite Hage; cbn [andb negb];
  destruct load_timescale as [ts | e];
  try match goal with |- context [tle_read ?f] => destruct (tle_read f) eqn:E end;
  cbn; rewrite ?E; (split; [let Hin := fresh in
                            intros Hin; repeat (destruct Hin as [Hin | Hin]; [discriminate |]);
                            exact Hin
                          | reflexivity]).
Qed.

(** X11: when the cache file is missing or at least [max_days] old and the
    download raises, [load_tles_smart] reads whatever file the attempt left
    at [filepath]: its satellites, or its exception, which escapes the
    function (the fallback read is inside the [except] clause).  With no
    file it returns [(None, None)]. *)
Theorem load_tles_smart_failed_download (fs : FileSys) (max_age_us : Z) ts fs1 e :
  load_timescale = Ret ts ->
  (file_exists fs = false \/ (max_age_us <= file_age_us fs)%Z) ->
  tle_download {| data_dir_exists := true; file_exists := file_exists fs;
                  file_age_us := file_age_us fs |} = (fs1, Raise e) ->
  load_tles_smart load_timescale tle_download tle_read fs max_age_us =
  if file_exists fs1 then
    ((if data_dir_exists fs then [] else [MakeDirs]) ++ [Download; ReadCache], fs1,
     let* satellites := tle_read fs1 in Ret (Some ts, Some satellites))
  else ((if data_dir_exists fs then [] else [MakeDirs]) ++ [Download], fs1, Ret (None, None)).
Proof.
  intros Hts Hstale Hdl. unfold load_tles_smart.
  assert (Hneed : negb (file_exists fs && Z.ltb (file_age_us fs) max_age_us) = true).
  { destruct Hstale as [H | H]; [rewrite H; reflexivity |].
    destruct (file_exists fs); [| reflexivity]. simpl.
    replace (file_age_us fs <? max_age_us)%Z with false; [reflexivity |].
    symmetry. apply Z.ltb_ge. exact H. }
  rewrite Hts. destruct fs as [dir ex age]. cbn [data_dir_exists file_exists file_age_us] in *.
  destruct dir; cbn [data_dir_exists file_exists file_age_us]; rewrite Hneed, Hdl;
    cbn [andb]; destruct (file_exists fs1); reflexivity.
Qed.

End TleCacheFacts.

Lemma load_tles_smart_fresh_cache_witness :
  (file_exists fresh_disk = true /\ (file_age_us fresh_disk < one_day_us)%Z) /\
  let '(log, fs', result) :=
    load_tles_smart (Ret tt) offline_download corrupt_read fresh_disk one_day_us in
  ~ In Download log /\
  result = match @Ret unit tt with
           | Raise e => Raise e
           | Ret ts =>
               match corrupt_read fs' with
               | Ret satellites => Ret (Some ts, Some satellites)
               | Raise _ => Ret (None, None)
               end
           end.
Proof.
  split; [split; vm_compute; reflexivity |].
  apply (load_tles_smart_fresh_cache unit (Ret tt) offline_download corrupt_read
           fresh_disk one_day_us); vm_compute; reflexivity.
Defined.

Lemma load_tles_smart_failed_download_witness :
  (@Ret unit tt = Ret tt /\
   (file_exists stale_disk = false \/ (one_day_us <= file_age_us stale_disk)%Z) /\
   offline_download {| data_dir_exists := true; file_exists := file_exists stale_disk;
                       file_age_us := file_age_us stale_disk |}
   = (stale_disk, Raise (External "URLError: network unreachable"))) /\
  load_tles_smart (Ret tt) offline_download corrupt_read stale_disk one_day_us =
  if file_exists stale_disk then
    ((if data_dir_exists stale_disk then [] else [MakeDirs]) ++ [Download; ReadCache],
     stale_disk,
     let* satellites := corrupt_read stale_disk in Ret (Some tt, Some satellites))
  else ((if data_dir_exists stale_disk then [] else [MakeDirs]) ++ [Download], stale_disk,
        Ret (None, None)).
Proof.
  split.
  - split; [reflexivity |]. split; [right; vm_compute; discriminate | vm_compute; reflexivity].
  - apply (load_tles_smart_failed_download unit (Ret tt) offline_download corrupt_read
             stale_disk one_day_us tt stale_disk (External "URLError: network unreachable")).
    + reflexivity.
    + right. vm_compute. discriminate.
    + vm_compute. reflexivity.
Defined.

(** ** The demo's integrator *)

Lemma last_cons_default {A} (a : A) (l : list A) (d d' : A) :
  last (a :: l) d = last (a :: l) d'.
Proof.
  revert a. induction l as [| b l IH]; intros a; [reflexivity |].
  change (last (b :: l) d = last (b :: l) d'). apply IH.
Qed.

Lemma rk4_loop_substeps (n : nat) (t : float) (s : list float) :
  (let* '(_, hist) := rk4_loop n DELTA_T t s in Ret (last (s :: hist) s)) = demo_substeps n s.
Proof.
  revert t s. induction n as [| n IH]; intros t s; [reflexivity |].
  cbn [rk4_loop demo_substeps].
  change (rk4_step t DELTA_T s) with (demo_rk4_substep s).
  destruct (demo_rk4_substep s) as [s1 |]; [| reflexivity]. cbn [bind].
  rewrite <- (IH (t + DELTA_T) s1).
  destruct (rk4_loop n DELTA_T (t + DELTA_T) s1) as [[ts hist] |]; [| reflexivity].
  cbn [bind]. f_equal. change (last (s1 :: hist) s = last (s1 :: hist) s1).
  apply last_cons_default.
Qed.

(** X12: the demo's hand-written integrator is [runge_kutta_4]: for every
    state and every [n], [n] of its steps (with [DELTA_T = 30]) give exactly
    the last state of [runge_kutta_4(state, 30, n)], and raise exactly when
    [runge_kutta_4] raises, with the same error. *)
Theorem demo_substeps_runge_kutta_4 (n : nat) (state : list float) :
  demo_substeps n state =
  (let* '(_, hist) := runge_kutta_4 state DELTA_T n in Ret (last hist state)).
Proof.
  rewrite <- (rk4_loop_substeps n 0 state). unfold runge_kutta_4.
  destruct (rk4_loop n DELTA_T 0 state) as [[ts hist] |]; reflexivity.
Qed.

Lemma demo_physics_ret (current_data current_data' : list DemoEntry) :
  demo_physics current_data = Ret current_data' ->
  Forall2 (fun e e' =>
    entry_sat e' = entry_sat e /\ entry_t0 e' = entry_t0 e /\ entry_name e' = entry_name e /\
    exists ts hist, runge_kutta_4 (entry_state e) DELTA_T SPEED_MULTIPLIER = Ret (ts, hist) /\
                    entry_state e' = last hist (entry_state e)) current_data current_data'.
Proof.
  revert current_data'.
  induction current_data as [| e data IH]; intros data' H; cbn [demo_physics] in H.
  - injection H as <-. constructor.
  - apply bind_ret in H as (state & Hs & H).
    destruct (nth_error state 2); [| discriminate].
    apply bind_ret in H as (rest & Hrest & H). injection H as <-.
    constructor; [| apply IH; exact Hrest].
    cbn [entry_sat entry_t0 entry_name entry_state]. repeat split.
    rewrite demo_substeps_runge_kutta_4 in Hs.
    apply bind_ret in Hs as ([ts hist] & Hrk & Hs). injection Hs as <-.
    exists ts, hist. split; [exact Hrk | reflexivity].
Qed.

(** X13: a frame of the demo that completes had at least one object selected
    (with none, [xs[0]] raises); it advances the clock by exactly 150 s and
    every object by [runge_kutta_4(state, 30, 5)] (its last state), keeping
    the object, [t0] and name; and the HUD says NOMINAL exactly when
    [error_km < 5.0] (a NaN error reads DRIFTING). *)
Theorem demo_update_frame (sat_at : Satellite -> float -> Exc (list float * list float))
  (current_data : list DemoEntry) (elapsed_seconds : float)
  current_data' elapsed_seconds' error_km status :
  demo_update sat_at current_data elapsed_seconds
  = Ret (current_data', elapsed_seconds', error_km, status) ->
  current_data <> [] /\
  elapsed_seconds' = elapsed_seconds + 150 /\
  Forall2 (fun e e' =>
    entry_sat e' = entry_sat e /\ entry_t0 e' = entry_t0 e /\ entry_name e' = entry_name e /\
    exists ts hist, runge_kutta_4 (entry_state e) 30 5 = Ret (ts, hist) /\
                    entry_state e' = last hist (entry_state e)) current_data current_data' /\
  (status = "NOMINAL"%string <-> (error_km <? 5) = true).
Proof.
  unfold demo_update. intros H.
  apply bind_ret in H as (data' & Hphys & H).
  pose proof (demo_physics_ret _ _ Hphys) as Hall.
  destruct data' as [| target rest]; [discriminate |].
  apply bind_ret in H as ([sgp4_pos v] & _ & H).
  apply bind_ret in H as (error_vec & _ & H). injection H as <- <- <- <-.
  split; [intros ->; inversion Hall |].
  split; [reflexivity |]. split; [exact Hall |].
  destruct (norm error_vec <? 5); split; try reflexivity; discriminate.
Qed.

Lemma demo_update_frame_witness :
  demo_update circular_sat_at demo_sample_data 0
  = Ret (demo_frame_data, demo_frame_elapsed, demo_frame_error, demo_frame_status) /\
  (demo_sample_data <> [] /\
   demo_frame_elapsed = 0 + 150 /\
   Forall2 (fun e e' =>
     entry_sat e' = entry_sat e /\ entry_t0 e' = entry_t0 e /\ entry_name e' = entry_name e /\
     exists ts hist, runge_kutta_4 (entry_state e) 30 5 = Ret (ts, hist) /\
                     entry_state e' = last hist (entry_state e)) demo_sample_data demo_frame_data /\
   (demo_frame_status = "NOMINAL"%string <-> (demo_frame_error <? 5) = true)).
Proof.
  split; [vm_compute; reflexivity |].
  apply (demo_update_frame circular_sat_at demo_sample_data 0).
  vm_compute. reflexivity.
Defined.
